(** * BRRtools batch converter: a model of [scripts/batch_convert.py]

    The script walks a directory of WAV files and sends each one through the
    external [brr_encoder] / [brr_decoder] pair.  Everything it does is either
    string and path arithmetic ([pathlib]) or a call into the operating
    system.  The development therefore has three layers:

    - [PyStr]: the few [str] methods the script relies on;
    - [Pathlib]: CPython 3.11's [pathlib] pure paths (drive, root, parts) for
      both flavours, since the script branches on [sys.platform];
    - [BatchConvert]: the script itself, written in a state-and-exception
      monad over an operating-system oracle, with a trace of every effect. *)

From Stdlib Require Import String Ascii List ZArith Lia Bool Arith.
From Stdlib Require Import DecimalString.
Import ListNotations.

Local Open Scope list_scope.
Local Open Scope string_scope.
Local Open Scope nat_scope.

(* ================================================================== *)
(** * Python strings *)
(* ================================================================== *)

Module PyStr.

(** Characters that cannot be typed conveniently inside a literal. *)
Definition bslash : ascii := "092"%char.
Definition slash : ascii := "047"%char.
Definition colon : ascii := "058"%char.
Definition dot : ascii := "046"%char.
Definition dquote : ascii := "034"%char.
Definition newline : ascii := "010"%char.

Definition str1 (c : ascii) : string := String c EmptyString.

(** [len(s)] *)
Definition len (s : string) : nat := String.length s.

Definition is_upper (c : ascii) : bool :=
  let n := nat_of_ascii c in (65 <=? n) && (n <=? 90).

Definition is_lower (c : ascii) : bool :=
  let n := nat_of_ascii c in (97 <=? n) && (n <=? 122).

Definition is_letter (c : ascii) : bool := is_upper c || is_lower c.

Definition lower_ascii (c : ascii) : ascii :=
  if is_upper c then ascii_of_nat (nat_of_ascii c + 32) else c.

(** [s.lower()] on the ASCII range. *)
Fixpoint lower (s : string) : string :=
  match s with
  | EmptyString => EmptyString
  | String c s' => String (lower_ascii c) (lower s')
  end.

(** [s.replace(old, new)] for one-character [old] and [new]. *)
Fixpoint replace_char (old new : ascii) (s : string) : string :=
  match s with
  | EmptyString => EmptyString
  | String c s' =>
      String (if Ascii.eqb c old then new else c) (replace_char old new s')
  end.

(** [c in s] for a character. *)
Fixpoint mem (c : ascii) (s : string) : bool :=
  match s with
  | EmptyString => false
  | String a s' => Ascii.eqb a c || mem c s'
  end.

(** [s[n:]] and [s[:n]] for a non-negative [n]. *)
Fixpoint drop (n : nat) (s : string) : string :=
  match n, s with
  | O, _ => s
  | S _, EmptyString => EmptyString
  | S n', String _ s' => drop n' s'
  end.

Fixpoint take (n : nat) (s : string) : string :=
  match n, s with
  | O, _ => EmptyString
  | S _, EmptyString => EmptyString
  | S n', String c s' => String c (take n' s')
  end.

(** [s[i:j]] *)
Definition slice (i j : nat) (s : string) : string := take (j - i) (drop i s).

(** [s.startswith(p)] *)
Definition startswith (p s : string) : bool := String.prefix p s.

(** [sub in s] *)
Fixpoint contains (sub s : string) : bool :=
  String.prefix sub s ||
  match s with
  | EmptyString => false
  | String _ s' => contains sub s'
  end.

(** [s.lstrip(c)] for a one-character argument. *)
Fixpoint lstrip_char (c : ascii) (s : string) : string :=
  match s with
  | EmptyString => EmptyString
  | String a s' => if Ascii.eqb a c then lstrip_char c s' else s
  end.

(** [s.split(sep)] for a one-character separator: never the empty list. *)
Fixpoint split (sep : ascii) (s : string) : list string :=
  match s with
  | EmptyString => [EmptyString]
  | String c s' =>
      if Ascii.eqb c sep then EmptyString :: split sep s'
      else match split sep s' with
           | [] => [str1 c]
           | w :: ws => String c w :: ws
           end
  end.

(** [sep.join(l)] *)
Fixpoint join (sep : string) (l : list string) : string :=
  match l with
  | [] => EmptyString
  | x :: xs =>
      match xs with
      | [] => x
      | _ :: _ => x ++ sep ++ join sep xs
      end
  end.

(** [s.find(c, start)]: the least index [>= start] holding [c], or [-1]. *)
Fixpoint find_at (c : ascii) (s : string) (i start : nat) : Z :=
  match s with
  | EmptyString => (-1)%Z
  | String a s' =>
      if (start <=? i) && Ascii.eqb a c then Z.of_nat i
      else find_at c s' (S i) start
  end.

Definition find (c : ascii) (s : string) (start : nat) : Z := find_at c s 0 start.

(** [s.rfind(c)]: the greatest index holding [c], or [-1]. *)
Fixpoint rfind_at (c : ascii) (s : string) (i : nat) (last : Z) : Z :=
  match s with
  | EmptyString => last
  | String a s' =>
      rfind_at c s' (S i) (if Ascii.eqb a c then Z.of_nat i else last)
  end.

Definition rfind (c : ascii) (s : string) : Z := rfind_at c s 0 (-1)%Z.

(** ASCII white space, as removed by [s.strip()]. *)
Definition is_space (c : ascii) : bool :=
  let n := nat_of_ascii c in
  (n =? 32) || ((9 <=? n) && (n <=? 13)) || ((28 <=? n) && (n <=? 31)).

Fixpoint lstrip (s : string) : string :=
  match s with
  | EmptyString => EmptyString
  | String a s' => if is_space a then lstrip s' else s
  end.

Fixpoint rstrip (s : string) : string :=
  match s with
  | EmptyString => EmptyString
  | String a s' =>
      match rstrip s' with
      | EmptyString => if is_space a then EmptyString else str1 a
      | r => String a r
      end
  end.

(** [s.strip()] *)
Definition strip (s : string) : string := rstrip (lstrip s).

(** [s * n] *)
Fixpoint repeat_str (s : string) (n : nat) : string :=
  match n with
  | O => EmptyString
  | S n' => s ++ repeat_str s n'
  end.

(** [str(n)] for an [int]. *)
Definition of_Z (z : Z) : string := NilZero.string_of_int (Z.to_int z).
Definition of_nat (n : nat) : string := of_Z (Z.of_nat n).

(** Truth value of a string: [if s:]. *)
Definition truthy (s : string) : bool := negb (s =? "")%string.

End PyStr.

(* ================================================================== *)
(** * pathlib pure paths *)
(* ================================================================== *)

(** A path object is the triple [(_drv, _root, _parts)] that CPython 3.11
    keeps: [parts] starts with the anchor [drive ++ root] when the path has
    one.  The flavour decides how a string is cut into that triple. *)

Module Pathlib.
Import PyStr.

Record Flavour := {
  sep : ascii;
  altsep : option ascii;
  splitroot : string -> string * string * string;
  casefold : string -> string
}.

Record PurePath := {
  drive : string;
  root : string;
  parts : list string
}.

(** ** POSIX flavour *)

Definition posix_splitroot (part : string) : string * string * string :=
  match part with
  | String c _ =>
      if Ascii.eqb c slash then
        let stripped_part := lstrip_char slash part in
        if len part - len stripped_part =? 2
        then ("", "//", stripped_part)
        else ("", "/", stripped_part)
      else ("", "", part)
  | EmptyString => ("", "", part)
  end.

Definition posix_flavour : Flavour :=
  {| sep := slash; altsep := None;
     splitroot := posix_splitroot; casefold := fun s => s |}.

(** ** Windows flavour *)

Definition nt_sep : string := str1 bslash.

(** The extended-path prefix: two backslashes, a question mark, a
    backslash. *)
Definition ext_namespace_prefix : string :=
  String bslash (String bslash (String "?"%char (String bslash EmptyString))).

Definition split_extended_path (s : string) : string * string :=
  if startswith ext_namespace_prefix s then
    let prefix := take 4 s in
    let s := drop 4 s in
    if startswith ("UNC" ++ nt_sep) s
    then (prefix ++ take 3 s, nt_sep ++ drop 3 s)
    else (prefix, s)
  else ("", s).

Definition is_drive_letter (s : string) : bool :=
  match s with
  | String c EmptyString => is_letter c
  | _ => false
  end.

(** The drive and root that remain once a UNC share has been ruled out. *)
Definition nt_splitroot_plain (prefix part first second third : string)
  : string * string * string :=
  let '(drv, part, first) :=
    if (second =? str1 colon)%string && is_drive_letter first
    then (take 2 part, drop 2 part, third)
    else ("", part, first) in
  let '(root, part) :=
    if (first =? nt_sep)%string
    then (first, lstrip_char bslash part)
    else ("", part) in
  (prefix ++ drv, root, part).

Definition nt_splitroot (part : string) : string * string * string :=
  let first := slice 0 1 part in
  let second := slice 1 2 part in
  let '(prefix, part, first, second) :=
    if (second =? nt_sep)%string && (first =? nt_sep)%string then
      let '(prefix, part) := split_extended_path part in
      (prefix, part, slice 0 1 part, slice 1 2 part)
    else ("", part, first, second) in
  let third := slice 2 3 part in
  if (second =? nt_sep)%string && (first =? nt_sep)%string
     && negb (third =? nt_sep)%string then
    (* a UNC path: two separators, machine, separator, share *)
    let index := find bslash part 2 in
    if (index =? -1)%Z then nt_splitroot_plain prefix part first second third
    else
      let index2 := find bslash part (Z.to_nat index + 1) in
      if (index2 =? index + 1)%Z
      then nt_splitroot_plain prefix part first second third
      else
        let index2 := if (index2 =? -1)%Z then len part else Z.to_nat index2 in
        if truthy prefix
        then (prefix ++ slice 1 index2 part, nt_sep, drop (index2 + 1) part)
        else (take index2 part, nt_sep, drop (index2 + 1) part)
  else nt_splitroot_plain prefix part first second third.

Definition windows_flavour : Flavour :=
  {| sep := bslash; altsep := Some slash;
     splitroot := nt_splitroot; casefold := lower |}.

(** ** Operations shared by the flavours *)

Section WithFlavour.
Variable fl : Flavour.

Definition anchored (p : PurePath) : bool :=
  truthy (drive p) || truthy (root p).

(** The components after the anchor: [parts[1:]] of an anchored path,
    [parts] of a relative one. *)
Definition tail (p : PurePath) : list string :=
  if anchored p then tl (parts p) else parts p.

Definition keep_component (x : string) : bool :=
  truthy x && negb (x =? ".")%string.

(** [parse_parts] on a single argument, which is how [Path(s)] and the
    right operand of [/] are read. *)
Definition parse_parts (part : string) : PurePath :=
  let part :=
    match altsep fl with
    | Some a => replace_char a (sep fl) part
    | None => part
    end in
  let '(drv, root, rel) := splitroot fl part in
  let parsed := filter keep_component (split (sep fl) rel) in
  {| drive := drv; root := root;
     parts := if truthy drv || truthy root
              then (drv ++ root) :: parsed else parsed |}.

(** [Path(s)] *)
Definition Path (s : string) : PurePath := parse_parts s.

Definition join_parsed_parts (p p2 : PurePath) : PurePath :=
  if truthy (root p2) then
    if negb (truthy (drive p2)) && truthy (drive p)
    then {| drive := drive p; root := root p2;
            parts := (drive p ++ root p2) :: tl (parts p2) |}
    else p2
  else if truthy (drive p2) then
    if (drive p2 =? drive p)%string
       || (casefold fl (drive p2) =? casefold fl (drive p))%string
    then {| drive := drive p; root := root p;
            parts := (parts p ++ tl (parts p2))%list |}
    else p2
  else {| drive := drive p; root := root p;
          parts := (parts p ++ parts p2)%list |}.

(** [p / key] for a string [key]. *)
Definition truediv (p : PurePath) (key : string) : PurePath :=
  join_parsed_parts p (parse_parts key).

(** The child that [iterdir] builds for a directory entry: the name is
    appended as it is, without being parsed. *)
Definition make_child_relpath (p : PurePath) (entry : string) : PurePath :=
  {| drive := drive p; root := root p; parts := (parts p ++ [entry])%list |}.

(** [p.name] *)
Definition name (p : PurePath) : string :=
  if List.length (parts p) =? (if anchored p then 1 else 0) then ""
  else last (parts p) "".

(** [p.parent] *)
Definition parent (p : PurePath) : PurePath :=
  if (List.length (parts p) =? 1) && anchored p then p
  else {| drive := drive p; root := root p;
          parts := removelast (parts p) |}.

(** [p.suffix] *)
Definition suffix (p : PurePath) : string :=
  let name := name p in
  let i := rfind dot name in
  if (0 <? i)%Z && (i <? Z.of_nat (len name) - 1)%Z
  then drop (Z.to_nat i) name else "".

(** [p.stem] *)
Definition stem (p : PurePath) : string :=
  let name := name p in
  let i := rfind dot name in
  if (0 <? i)%Z && (i <? Z.of_nat (len name) - 1)%Z
  then take (Z.to_nat i) name else name.

Definition format_parsed_parts (p : PurePath) : string :=
  if anchored p
  then drive p ++ root p ++ join (str1 (sep fl)) (tl (parts p))
  else join (str1 (sep fl)) (parts p).

(** [str(p)] *)
Definition str (p : PurePath) : string :=
  let s := format_parsed_parts p in
  if truthy s then s else ".".

(** Invariant of every path object: the anchor heads [parts], and the
    other components are non-empty and free of the separator. *)
Definition wf_component (c : string) : bool :=
  truthy c && negb (mem (sep fl) c).

Definition wf (p : PurePath) : bool :=
  (if anchored p
   then match parts p with
        | a :: _ => (a =? drive p ++ root p)%string
        | [] => false
        end
   else true)
  && forallb wf_component (tail p).

End WithFlavour.

(** ** [Path.resolve()] on Windows, on a file system without links

    The path is made absolute against the current directory [cwd] and its
    [..] components are folded away.  A rooted path without a drive takes
    the drive of [cwd]; a drive-relative path on another drive starts at
    that drive's root. *)

Fixpoint normpath_components (stack comps : list string) : list string :=
  match comps with
  | [] => rev stack
  | c :: cs =>
      if (c =? "..")%string
      then normpath_components (tl stack) cs
      else normpath_components (c :: stack) cs
  end.

Definition absolute_path (drv : string) (comps : list string) : PurePath :=
  {| drive := drv; root := nt_sep;
     parts := (drv ++ nt_sep) :: normpath_components [] comps |}.

Definition nt_resolve (cwd p : PurePath) : PurePath :=
  if truthy (drive p) then
    if truthy (root p) then absolute_path (drive p) (tail p)
    else if (lower (drive p) =? lower (drive cwd))%string
         then absolute_path (drive cwd) (tail cwd ++ tail p)%list
         else absolute_path (drive p) (tail p)
  else if truthy (root p) then absolute_path (drive cwd) (tail p)
  else absolute_path (drive cwd) (tail cwd ++ tail p)%list.

(** On POSIX, without links: absolute against [cwd], [..] folded. *)
Definition posix_resolve (cwd p : PurePath) : PurePath :=
  let comps := if truthy (root p) then tail p else (tail cwd ++ tail p)%list in
  let r := if truthy (root p) then root p else root cwd in
  {| drive := ""; root := r; parts := r :: normpath_components [] comps |}.

End Pathlib.

(* ================================================================== *)
(** * The operating system as an oracle, and the effect monad *)
(* ================================================================== *)

Module Effects.
Import PyStr Pathlib.

(** [sys.platform == "win32"] or not; it also fixes the flavour of [Path]. *)
Inductive Platform := Win32 | Unix.

Definition flavour_of (pf : Platform) : Flavour :=
  match pf with
  | Win32 => windows_flavour
  | Unix => posix_flavour
  end.

(** What [subprocess.run(..., capture_output=True, text=True)] returns. *)
Record CompletedProcess := {
  returncode : Z;
  stdout : string;
  stderr : string
}.

(** The exceptions the script can meet; all derive from [Exception]. *)
Inductive exn :=
| CalledProcessError (code : Z) (cmd : list string) (out err : string)
| ValueError (msg : string)
| FileNotFoundError (msg : string)
| OSError (msg : string)
| AttributeError (msg : string).

(** [str(e)].  The text of a [CalledProcessError] is never printed by the
    script, which formats its fields itself. *)
Definition exn_str (e : exn) : string :=
  match e with
  | CalledProcessError code _ _ _ =>
      "Command returned non-zero exit status " ++ of_Z code ++ "."
  | ValueError msg | FileNotFoundError msg | OSError msg
  | AttributeError msg => msg
  end.

Definition is_CalledProcessError (e : exn) : bool :=
  match e with CalledProcessError _ _ _ _ => true | _ => false end.

(** Every effect of a run, in the order it happened. *)
Inductive Event :=
| EvExec (argv : list string) (r : exn + CompletedProcess)
| EvRemove (p : PurePath) (r : option exn)
| EvMakedirs (p : PurePath) (r : option exn)
| EvSleep (ms : Z)
| EvStdout (line : string)
| EvStderr (line : string)
| EvTraceback (e : exn).

(** The operating system seen from the script.  Queries read the world;
    actions also change it.  A failed launch ([inl]) is an exception raised
    by [subprocess.run] itself, a finished process ([inr]) carries its exit
    status. *)
Record OS (W : Type) := {
  sys_platform : Platform;
  path_is_dir : W -> PurePath -> bool;
  path_is_file : W -> PurePath -> bool;
  path_exists : W -> PurePath -> bool;
  os_listdir : W -> PurePath -> exn + list string;
  path_resolve : W -> PurePath -> PurePath;
  os_environ_get : W -> string -> option string;
  os_makedirs : W -> PurePath -> option exn * W;
  os_remove_file : W -> PurePath -> option exn * W;
  time_sleep : W -> Z -> W;
  subprocess_exec : W -> list string -> (exn + CompletedProcess) * W
}.

Arguments sys_platform {W}.
Arguments path_is_dir {W}.
Arguments path_is_file {W}.
Arguments path_exists {W}.
Arguments os_listdir {W}.
Arguments path_resolve {W}.
Arguments os_environ_get {W}.
Arguments os_makedirs {W}.
Arguments os_remove_file {W}.
Arguments time_sleep {W}.
Arguments subprocess_exec {W}.

Record State (W : Type) := {
  world : W;
  trace : list Event
}.

Arguments world {W}.
Arguments trace {W}.

(** [Diverge] is what a loop yields when its fuel is spent; no handler
    catches it. *)
Inductive Result (A : Type) :=
| Ok (a : A)
| Raise (e : exn)
| Diverge.

Arguments Ok {A}.
Arguments Raise {A}.
Arguments Diverge {A}.

Definition M (W A : Type) : Type := State W -> Result A * State W.

Section Monad.
Context {W : Type}.

Definition ret {A} (a : A) : M W A := fun st => (Ok a, st).

Definition bind {A B} (m : M W A) (k : A -> M W B) : M W B :=
  fun st =>
    match m st with
    | (Ok a, st') => k a st'
    | (Raise e, st') => (Raise e, st')
    | (Diverge, st') => (Diverge, st')
    end.

Definition raise {A} (e : exn) : M W A := fun st => (Raise e, st).

Definition diverge {A} : M W A := fun st => (Diverge, st).

(** [try: m  except Exception as e: h e] *)
Definition try_except {A} (m : M W A) (h : exn -> M W A) : M W A :=
  fun st =>
    match m st with
    | (Raise e, st') => h e st'
    | r => r
    end.

Definition emit (ev : Event) : M W unit :=
  fun st => (Ok tt, {| world := world st; trace := (trace st ++ [ev])%list |}).

(** A query of the world. *)
Definition ask {A} (q : W -> A) : M W A := fun st => (Ok (q (world st)), st).

(** An action on the world, logged by [ev]. *)
Definition act {A} (f : W -> A * W) (ev : A -> Event) : M W A :=
  fun st =>
    let '(a, w') := f (world st) in
    (Ok a, {| world := w'; trace := (trace st ++ [ev a])%list |}).

End Monad.

Declare Scope monad_scope.
Delimit Scope monad_scope with monad.
Notation "x <- m ;; k" := (bind m (fun x => k))
  (at level 61, m at next level, right associativity) : monad_scope.
Notation "m ;; k" := (bind m (fun _ => k))
  (at level 61, right associativity) : monad_scope.

Section Primitives.
Context {W : Type} (os : OS W).
Local Open Scope monad_scope.

(** [print(s)] and [print(s, file=sys.stderr)] *)
Definition print (s : string) : M W unit := emit (EvStdout s).
Definition eprint (s : string) : M W unit := emit (EvStderr s).

(** [traceback.print_exc()] inside a handler for [e]. *)
Definition print_exc (e : exn) : M W unit := emit (EvTraceback e).

Definition is_dir (p : PurePath) : M W bool := ask (fun w => path_is_dir os w p).
Definition is_file (p : PurePath) : M W bool := ask (fun w => path_is_file os w p).
Definition exists_ (p : PurePath) : M W bool := ask (fun w => path_exists os w p).

(** [p.iterdir()], read in full. *)
Definition iterdir (p : PurePath) : M W (list PurePath) :=
  r <- ask (fun w => os_listdir os w p) ;;
  match r with
  | inl e => raise e
  | inr entries => ret (map (make_child_relpath p) entries)
  end.

(** [os.environ.get(key)] *)
Definition environ_get (key : string) : M W (option string) :=
  ask (fun w => os_environ_get os w key).

(** [os.makedirs(p, exist_ok=True)] *)
Definition makedirs (p : PurePath) : M W unit :=
  r <- act (fun w => os_makedirs os w p) (EvMakedirs p) ;;
  match r with
  | Some e => raise e
  | None => ret tt
  end.

(** [os.remove(p)] *)
Definition remove (p : PurePath) : M W unit :=
  r <- act (fun w => os_remove_file os w p) (EvRemove p) ;;
  match r with
  | Some e => raise e
  | None => ret tt
  end.

(** [sleep(0.05)], the duration given in milliseconds. *)
Definition sleep (ms : Z) : M W unit :=
  act (fun w => (tt, time_sleep os w ms)) (fun _ => EvSleep ms).

(** [subprocess.run(argv, check=check, capture_output=True, text=True)] *)
Definition subprocess_run (argv : list string) (check : bool)
  : M W CompletedProcess :=
  r <- act (fun w => subprocess_exec os w argv) (EvExec argv) ;;
  match r with
  | inl e => raise e
  | inr cp =>
      if check && negb (returncode cp =? 0)%Z
      then raise (CalledProcessError (returncode cp) argv (stdout cp) (stderr cp))
      else ret cp
  end.

End Primitives.

End Effects.

(* ================================================================== *)
(** * The script: class [BatchProcessor] and the entry point *)
(* ================================================================== *)

Module BatchConvert.
Import PyStr Pathlib Effects.
Local Open Scope monad_scope.

Definition nl : string := str1 newline.
Definition q : string := str1 dquote.

(** The attributes set by [__init__]; [cygwin_bash] exists on Windows only. *)
Record BatchProcessor := {
  infiles : list PurePath;
  outpath : PurePath;
  rate : Z;
  brrtools_bin : PurePath;
  cygwin_bash : option string
}.

(** [argparse]'s namespace. *)
Record Args := {
  arg_brrtools : string;
  arg_indir : string;
  arg_outdir : string;
  arg_rate : Z
}.

(** ** [_windows_to_cygwin_path]

    [resolve] stands for [Path.resolve], which reads the file system. *)
Definition _windows_to_cygwin_path (fl : Flavour)
    (resolve : PurePath -> PurePath) (win_path : string) : string :=
  let path := resolve (Path fl win_path) in
  let parts := Pathlib.parts path in
  if (0 <? List.length parts)
     && (len (hd "" parts) =? 3)
     && (slice 1 2 (hd "" parts) =? str1 colon)%string
  then
    let drive := lower (slice 0 1 (hd "" parts)) in
    let rest := join "/" (tl parts) in
    "/cygdrive/" ++ drive ++ "/" ++ rest
  else
    replace_char bslash slash (str fl path).

Section Script.
Context {W : Type} (os : OS W).

Definition fl : Flavour := flavour_of (sys_platform os).

(** ** [get_infiles] *)
Definition is_wav (w : W) (item : PurePath) : bool :=
  path_is_file os w item && (lower (suffix item) =? ".wav")%string.

Definition get_infiles (indir : string) : M W (list PurePath) :=
  let dirpath := Path fl indir in
  d <- is_dir os dirpath ;;
  if negb d then
    raise (ValueError ("Input directory does not exist: " ++ str fl dirpath))
  else
    items <- iterdir os dirpath ;;
    infiles <- ask (fun w => filter (is_wav w) items) ;;
    match infiles with
    | [] => raise (ValueError ("No .wav files found in " ++ str fl dirpath))
    | _ :: _ =>
        print ("Found " ++ of_nat (List.length infiles)
               ++ " WAV files to process") ;;
        ret infiles
    end.

(** ** [get_outpath] *)
Definition get_outpath (outdir : string) : M W PurePath :=
  let outpath := Path fl outdir in
  e <- exists_ os outpath ;;
  (if negb e then
     makedirs os outpath ;;
     print ("Created output directory: " ++ str fl outpath)
   else ret tt) ;;
  d <- is_dir os outpath ;;
  if negb d then
    raise (ValueError ("Output path exists but is not a directory: "
                       ++ str fl outpath))
  else ret outpath.

(** ** [get_brrtools_bin] *)
Definition get_brrtools_bin (brrtools_dir : string) : M W PurePath :=
  let brrtools_path := Path fl brrtools_dir in
  d <- is_dir os brrtools_path ;;
  if negb d then
    raise (ValueError ("BRRtools directory does not exist: "
                       ++ str fl brrtools_path))
  else
    let brrtools_bin := truediv fl brrtools_path "bin" in
    d' <- is_dir os brrtools_bin ;;
    if negb d' then
      raise (ValueError ("BRRtools bin directory does not exist: "
                         ++ str fl brrtools_bin))
    else ret brrtools_bin.

(** ** [_find_cygwin_bash] *)

Definition default_bash_paths : list PurePath :=
  [ Path fl "C:/cygwin64/bin/bash.exe"; Path fl "C:/cygwin/bin/bash.exe" ].

(** The list after the optional [insert(0, ...)]. *)
Definition possible_paths (cygwin_root : option string) : list PurePath :=
  match cygwin_root with
  | Some r =>
      if truthy r
      then truediv fl (truediv fl (Path fl r) "bin") "bash.exe"
           :: default_bash_paths
      else default_bash_paths
  | None => default_bash_paths
  end.

(** [for bash_path in possible_paths: if bash_path.exists(): return ...] *)
Fixpoint first_existing (paths : list PurePath) : M W (option string) :=
  match paths with
  | [] => ret None
  | bash_path :: rest =>
      e <- exists_ os bash_path ;;
      if e then ret (Some (str fl bash_path)) else first_existing rest
  end.

(** [for location in bash_locations: ...] *)
Fixpoint first_cygwin_location (bash_locations : list string)
  : M W (option string) :=
  match bash_locations with
  | [] => ret None
  | location :: rest =>
      let location := strip location in
      if contains "system32" (lower location) then first_cygwin_location rest
      else if contains "cygwin" (lower location) then
        e <- exists_ os (Path fl location) ;;
        if e then ret (Some location) else first_cygwin_location rest
      else first_cygwin_location rest
  end.

Definition where_bash : M W (option string) :=
  try_except
    (result <- subprocess_run os ["where"; "bash.exe"] false ;;
     if (returncode result =? 0)%Z then
       first_cygwin_location (split newline (strip (stdout result)))
     else ret None)
    (fun _ => ret None).

Definition bash_not_found : string :=
  "Could not find Cygwin bash.exe." ++ nl
  ++ "Make sure Cygwin is installed." ++ nl
  ++ "If Cygwin is installed in a non-standard location, "
  ++ "set CYGWIN_ROOT environment variable." ++ nl
  ++ "Example: set CYGWIN_ROOT=C:" ++ str1 bslash ++ "cygwin64".

Definition _find_cygwin_bash : M W string :=
  cygwin_root <- environ_get os "CYGWIN_ROOT" ;;
  found <- first_existing (possible_paths cygwin_root) ;;
  match found with
  | Some bash => ret bash
  | None =>
      located <- where_bash ;;
      match located with
      | Some location => ret location
      | None => raise (FileNotFoundError bash_not_found)
      end
  end.

(** ** [__init__] *)
Definition BatchProcessor_init (brrtools_dir indir outdir : string) (rate : Z)
  : M W BatchProcessor :=
  infiles <- get_infiles indir ;;
  outpath <- get_outpath outdir ;;
  brrtools_bin <- get_brrtools_bin brrtools_dir ;;
  match sys_platform os with
  | Win32 =>
      bash <- _find_cygwin_bash ;;
      print ("Using Cygwin bash: " ++ bash) ;;
      ret {| infiles := infiles; outpath := outpath; rate := rate;
             brrtools_bin := brrtools_bin; cygwin_bash := Some bash |}
  | Unix =>
      ret {| infiles := infiles; outpath := outpath; rate := rate;
             brrtools_bin := brrtools_bin; cygwin_bash := None |}
  end.

(** ** [process_file] *)

(** The three paths of one conversion. *)
Definition job_in_wav (infile : PurePath) : string := str fl infile.

Definition job_tmp_brr (self : BatchProcessor) (infile : PurePath) : PurePath :=
  truediv fl (outpath self) (stem infile ++ ".brr").

Definition job_out_wav (self : BatchProcessor) (infile : PurePath) : PurePath :=
  truediv fl (outpath self) (name infile).

Definition to_cygwin (win_path : string) : M W string :=
  ask (fun w => _windows_to_cygwin_path fl (path_resolve os w) win_path).

Definition get_cygwin_bash (self : BatchProcessor) : M W string :=
  match cygwin_bash self with
  | Some bash => ret bash
  | None =>
      raise (AttributeError
               "'BatchProcessor' object has no attribute 'cygwin_bash'")
  end.

Definition encode_argv_native (self : BatchProcessor) (infile : PurePath)
  : list string :=
  [ str fl (truediv fl (brrtools_bin self) "brr_encoder");
    "-sb" ++ of_Z (rate self);
    job_in_wav infile;
    str fl (job_tmp_brr self infile) ].

Definition decode_argv_native (self : BatchProcessor) (infile : PurePath)
  : list string :=
  [ str fl (truediv fl (brrtools_bin self) "brr_decoder");
    "-s" ++ of_Z (rate self);
    "-g";
    str fl (job_tmp_brr self infile);
    str fl (job_out_wav self infile) ].

(** The command lines of the encode and the decode stage: two
    [bash -c] commands on Windows, two direct calls elsewhere.  All paths
    are converted before the first stage runs. *)
Definition tool_argvs (self : BatchProcessor) (infile : PurePath)
  : M W (list string * list string) :=
  match sys_platform os with
  | Win32 =>
      let brr_encoder_exe := "brr_encoder" in
      let brr_decoder_exe := "brr_decoder" in
      in_wav_path <- to_cygwin (job_in_wav infile) ;;
      tmp_brr_path <- to_cygwin (str fl (job_tmp_brr self infile)) ;;
      out_wav_path <- to_cygwin (str fl (job_out_wav self infile)) ;;
      brr_encoder <-
        to_cygwin (str fl (truediv fl (brrtools_bin self) brr_encoder_exe)) ;;
      brr_decoder <-
        to_cygwin (str fl (truediv fl (brrtools_bin self) brr_decoder_exe)) ;;
      let encode_cmd :=
        q ++ brr_encoder ++ q ++ " -sb" ++ of_Z (rate self) ++ " "
        ++ q ++ in_wav_path ++ q ++ " " ++ q ++ tmp_brr_path ++ q in
      let decode_cmd :=
        q ++ brr_decoder ++ q ++ " -s" ++ of_Z (rate self) ++ " -g "
        ++ q ++ tmp_brr_path ++ q ++ " " ++ q ++ out_wav_path ++ q in
      bash <- get_cygwin_bash self ;;
      ret ([bash; "-c"; encode_cmd], [bash; "-c"; decode_cmd])
  | Unix =>
      ret (encode_argv_native self infile, decode_argv_native self infile)
  end.

(** The two [subprocess.run(..., check=True)] calls. *)
Definition run_tools (self : BatchProcessor) (infile : PurePath) : M W unit :=
  argvs <- tool_argvs self infile ;;
  subprocess_run os (fst argvs) true ;;
  subprocess_run os (snd argvs) true ;;
  ret tt.

(** [while retries < 6: ...]; each turn of the loop spends one unit of
    [fuel]. *)
Fixpoint remove_retry (fuel retries : nat) (tmp_brr : PurePath) : M W unit :=
  if retries <? 6 then
    match fuel with
    | O => diverge
    | S fuel' =>
        let retries := retries + 1 in
        try_except
          (remove os tmp_brr)
          (fun e_del =>
             if retries <? 6 then
               sleep os 50 ;;
               remove_retry fuel' retries tmp_brr
             else
               eprint ("Warning: Could not remove temporary BRR file: "
                       ++ exn_str e_del))
    end
  else ret tt.

(** [# Delete temporary BRR file] *)
Definition delete_tmp_brr (tmp_brr : PurePath) : M W unit :=
  e <- exists_ os tmp_brr ;;
  if e then remove_retry 6 0 tmp_brr else ret tt.

Definition process_file (self : BatchProcessor) (infile : PurePath) : M W unit :=
  run_tools self infile ;;
  delete_tmp_brr (job_tmp_brr self infile).

(** ** [process_batch] *)

Definition banner : string := repeat_str "=" 70.

Definition report_tool_error (infile : PurePath) (code : Z) (out err : string)
  : M W unit :=
  eprint (nl ++ banner) ;;
  eprint ("ERROR processing " ++ name infile) ;;
  eprint ("Exit code: " ++ of_Z code) ;;
  (if truthy out then eprint ("Stdout: " ++ out) else ret tt) ;;
  (if truthy err then eprint ("Stderr: " ++ err) else ret tt) ;;
  eprint banner.

Definition report_unexpected (infile : PurePath) (e : exn) : M W unit :=
  eprint (nl ++ "Unexpected error processing " ++ name infile ++ ": "
          ++ exn_str e) ;;
  print_exc e.

(** The [for] loop, carrying the two counters.  The [tqdm] progress bar
    around the list is not modelled. *)
Fixpoint batch_loop (self : BatchProcessor) (todo : list PurePath)
    (success_count error_count : nat) : M W (nat * nat) :=
  match todo with
  | [] => ret (success_count, error_count)
  | infile :: todo' =>
      counts <-
        try_except
          (process_file self infile ;;
           ret (success_count + 1, error_count))
          (fun e =>
             match e with
             | CalledProcessError code _ out err =>
                 report_tool_error infile code out err ;;
                 ret (success_count, error_count + 1)
             | _ =>
                 report_unexpected infile e ;;
                 ret (success_count, error_count + 1)
             end) ;;
      batch_loop self todo' (fst counts) (snd counts)
  end.

Definition summary (self : BatchProcessor) (success_count error_count : nat)
  : list string :=
  [ nl ++ banner;
    "Batch processing complete!";
    "  Success: " ++ of_nat success_count ++ "/"
      ++ of_nat (List.length (infiles self));
    "  Errors:  " ++ of_nat error_count ++ "/"
      ++ of_nat (List.length (infiles self));
    banner ].

Fixpoint print_lines (lines : list string) : M W unit :=
  match lines with
  | [] => ret tt
  | l :: ls => print l ;; print_lines ls
  end.

Definition process_batch (self : BatchProcessor) : M W unit :=
  counts <- batch_loop self (infiles self) 0 0 ;;
  print_lines (summary self (fst counts) (snd counts)).

(** ** [if __name__ == "__main__":] after [parse_args]; the value is the
    exit status of the process. *)
Definition main (args : Args) : M W Z :=
  try_except
    (processor <- BatchProcessor_init (arg_brrtools args) (arg_indir args)
                    (arg_outdir args) (arg_rate args) ;;
     process_batch processor ;;
     print (nl ++ "DONE") ;;
     ret 0%Z)
    (fun e =>
       eprint (nl ++ "FATAL ERROR: " ++ exn_str e) ;;
       print_exc e ;;
       ret 1%Z).

End Script.

End BatchConvert.

(* ================================================================== *)
(** * Vocabulary of the statements *)
(* ================================================================== *)

Module Spec.
Import PyStr Pathlib Effects BatchConvert.

(** A name that a directory listing can hold: not empty, not one of the
    dot entries, free of the separators, and, on Windows, of the colon. *)
Definition valid_entry (pf : Platform) (e : string) : bool :=
  truthy e
  && negb (e =? ".")%string && negb (e =? "..")%string
  && negb (mem slash e)
  && match pf with
     | Win32 => negb (mem bslash e) && negb (mem colon e)
     | Unix => true
     end.

(** The listing of [p] in the world [w] holds such names only. *)
Definition listing_valid_at {W} (os : OS W) (w : W) (p : PurePath) : bool :=
  match os_listdir os w p with
  | inr entries => forallb (valid_entry (sys_platform os)) entries
  | inl _ => true
  end.

(** A component of a path that [resolve] leaves alone. *)
Definition plain_component (c : string) : bool :=
  truthy c
  && negb (c =? ".")%string && negb (c =? "..")%string
  && negb (mem slash c) && negb (mem bslash c).

(** The text the Windows branch of [_windows_to_cygwin_path] produces for
    the drive letter [d] and the components [comps]. *)
Definition mount_path (d : ascii) (comps : list string) : string :=
  "/cygdrive/" ++ str1 d ++ "/" ++ join "/" comps.

(** The [k] failed deletions, each followed by the 50 ms pause. *)
Definition failed_attempts (tmp : PurePath) (errs : list exn) : list Event :=
  flat_map (fun e => [EvRemove tmp (Some e); EvSleep 50]) errs.

Definition warning (e : exn) : Event :=
  EvStderr ("Warning: Could not remove temporary BRR file: " ++ exn_str e).

(** The world in which the loop makes its attempt number [k] (from 0),
    all earlier ones having failed. *)
Fixpoint attempt_world {W} (os : OS W) (tmp : PurePath) (k : nat) (w : W) : W :=
  match k with
  | O => w
  | S k' =>
      time_sleep os (snd (os_remove_file os (attempt_world os tmp k' w) tmp)) 50
  end.

Definition attempt_result {W} (os : OS W) (tmp : PurePath) (k : nat) (w : W)
  : option exn :=
  fst (os_remove_file os (attempt_world os tmp k w) tmp).

(** What the deletion loop does when entered in state [st] with [retries]
    attempts already made: the attempts numbered [0 .. length errs - 1]
    fail with the errors [errs], each followed by the pause, and the next
    one either succeeds or is the sixth failure, followed by the warning.
    Nothing else is done. *)
Definition loop_outcome {W} (os : OS W) (tmp : PurePath) (retries : nat)
    (st st' : State W) (errs : list exn) : Prop :=
  (forall k, k < List.length errs ->
             attempt_result os tmp k (world st) = nth_error errs k)
  /\ ((retries + List.length errs <= 5
       /\ attempt_result os tmp (List.length errs) (world st) = None
       /\ trace st' = (trace st ++ failed_attempts tmp errs
                       ++ [EvRemove tmp None])%list)
      \/ (exists e,
             retries + List.length errs = 5
             /\ attempt_result os tmp (List.length errs) (world st) = Some e
             /\ trace st' = (trace st ++ failed_attempts tmp errs
                             ++ [EvRemove tmp (Some e); warning e])%list)).

Definition count_removes (evs : list Event) : nat :=
  List.length (filter (fun ev => match ev with EvRemove _ _ => true | _ => false end) evs).

Definition is_warning (ev : Event) : bool :=
  match ev with EvStderr _ => true | _ => false end.




(** The search as the claim describes it once the candidate under
    [CYGWIN_ROOT] has been found missing: the two usual places in order,
    then the system-wide search, and the error when that finds nothing
    either. *)
Definition fallback_search {W} (os : OS W) (st : State W)
  : Result string * State W :=
  if path_exists os (world st) (Path (fl os) "C:/cygwin64/bin/bash.exe")
  then (Ok (str (fl os) (Path (fl os) "C:/cygwin64/bin/bash.exe")), st)
  else if path_exists os (world st) (Path (fl os) "C:/cygwin/bin/bash.exe")
  then (Ok (str (fl os) (Path (fl os) "C:/cygwin/bin/bash.exe")), st)
  else match where_bash os st with
       | (Ok (Some location), st') => (Ok location, st')
       | (Ok None, st') => (Raise (FileNotFoundError bash_not_found), st')
       | (Raise e, st') => (Raise e, st')
       | (Diverge, st') => (Diverge, st')
       end.

(** An event of the deletion step: an attempt, a pause or the warning. *)
Definition cleanup_event (ev : Event) : bool :=
  match ev with
  | EvRemove _ _ | EvSleep _ | EvStderr _ => true
  | _ => false
  end.

(** The block that the loop prints for an item whose tool exited with the
    status [code], having written [out] and [err]. *)
Definition tool_error_report (item_name : string) (code : Z) (out err : string)
  : list Event :=
  map EvStderr
    (List.app
       [nl ++ banner; "ERROR processing " ++ item_name; "Exit code: " ++ of_Z code]
       (List.app (if truthy out then ["Stdout: " ++ out] else [])
          (List.app (if truthy err then ["Stderr: " ++ err] else [])
             [banner]))).

(** What the loop prints for any other exception. *)
Definition unexpected_report (item_name : string) (e : exn) : list Event :=
  [EvStderr (nl ++ "Unexpected error processing " ++ item_name ++ ": "
             ++ exn_str e);
   EvTraceback e].


(** What start-up may do outside Windows: print, and create the output
    directory. *)
Definition print_or_mkdir (ev : Event) : bool :=
  match ev with
  | EvStdout _ | EvMakedirs _ _ => true
  | _ => false
  end.

(** A computation all of whose events satisfy [P]. *)
Definition only_events {W A} (P : Event -> bool) (m : M W A) : Prop :=
  forall st,
  exists evs, trace (snd (m st)) = (trace st ++ evs)%list
              /\ forallb P evs = true.

Definition is_exec (ev : Event) : bool :=
  match ev with EvExec _ _ => true | _ => false end.

Definition no_exec (evs : list Event) : bool :=
  forallb (fun ev => negb (is_exec ev)) evs.

(** The events of one item of the batch outside Windows: the encoder run
    on this item comes first; the only other process, if any, is the decoder
    run on this item, right after it. *)
Definition item_block {W} (os : OS W) (self : BatchProcessor)
    (infile : PurePath) (evs : list Event) : Prop :=
  exists r rest,
    evs = EvExec (encode_argv_native os self infile) r :: rest
    /\ (no_exec rest = true
        \/ exists r2 rest2,
             rest = EvExec (decode_argv_native os self infile) r2 :: rest2
             /\ no_exec rest2 = true).


End Spec.

(* ================================================================== *)
(** * A small concrete machine *)
(* ================================================================== *)

(** One flat file system, a counter of deletions still to be refused, an
    encoder that rejects every input whose path mentions [bad], and a decoder
    that rejects every one that mentions [corrupt]. *)

Module Machine.
Import PyStr Pathlib Effects BatchConvert.

Record World := {
  w_dirs : list string;
  w_files : list string;
  w_listing : list string;
  w_cygwin_root : option string;
  w_locks : nat
}.

Definition has (s : string) (l : list string) : bool := existsb (String.eqb s) l.

Definition add_file (f : string) (w : World) : World :=
  {| w_dirs := w_dirs w; w_files := (w_files w ++ [f])%list;
     w_listing := w_listing w; w_cygwin_root := w_cygwin_root w;
     w_locks := w_locks w |}.

Definition ok_process : CompletedProcess :=
  {| returncode := 0; stdout := ""; stderr := "" |}.

Definition bad_process : CompletedProcess :=
  {| returncode := 2; stdout := ""; stderr := "bad input" |}.

Definition exec (w : World) (argv : list string)
  : (exn + CompletedProcess) * World :=
  match argv with
  | [_; _; inp; out] =>
      if contains "bad" inp then (inr bad_process, w)
      else (inr ok_process, add_file out w)
  | [_; _; _; inp; out] =>
      if contains "corrupt" inp then (inr bad_process, w)
      else (inr ok_process, add_file out w)
  | _ => (inl (FileNotFoundError "no such program"), w)
  end.

Definition remove_file (pf : Platform) (w : World) (p : PurePath)
  : option exn * World :=
  match w_locks w with
  | S n =>
      (Some (OSError "file is locked"),
       {| w_dirs := w_dirs w; w_files := w_files w; w_listing := w_listing w;
          w_cygwin_root := w_cygwin_root w; w_locks := n |})
  | O =>
      (None,
       {| w_dirs := w_dirs w;
          w_files := filter (fun f => negb (f =? str (flavour_of pf) p)%string)
                            (w_files w);
          w_listing := w_listing w; w_cygwin_root := w_cygwin_root w;
          w_locks := 0 |})
  end.

Definition machine (pf : Platform) : OS World :=
  let fl := flavour_of pf in
  {| sys_platform := pf;
     path_is_dir := fun w p => has (str fl p) (w_dirs w);
     path_is_file := fun w p => has (str fl p) (w_files w);
     path_exists := fun w p => has (str fl p) (w_dirs w) || has (str fl p) (w_files w);
     os_listdir := fun w _ => inr (w_listing w);
     path_resolve := fun _ p =>
       match pf with
       | Win32 => nt_resolve (Path fl "C:/work") p
       | Unix => posix_resolve (Path fl "/work") p
       end;
     os_environ_get := fun w key =>
       if (key =? "CYGWIN_ROOT")%string then w_cygwin_root w else None;
     os_makedirs := fun w p =>
       (None, {| w_dirs := (w_dirs w ++ [str fl p])%list; w_files := w_files w;
                 w_listing := w_listing w; w_cygwin_root := w_cygwin_root w;
                 w_locks := w_locks w |});
     os_remove_file := remove_file pf;
     time_sleep := fun w _ => w;
     subprocess_exec := exec |}.

(** The same machine with tools that exit with status 0 and write
    nothing. *)
Definition dry_machine (pf : Platform) : OS World :=
  {| sys_platform := pf;
     path_is_dir := path_is_dir (machine pf);
     path_is_file := path_is_file (machine pf);
     path_exists := path_exists (machine pf);
     os_listdir := os_listdir (machine pf);
     path_resolve := path_resolve (machine pf);
     os_environ_get := os_environ_get (machine pf);
     os_makedirs := os_makedirs (machine pf);
     os_remove_file := os_remove_file (machine pf);
     time_sleep := time_sleep (machine pf);
     subprocess_exec := fun w _ => (inr ok_process, w) |}.

Definition start (w : World) : State World := {| world := w; trace := [] |}.

(** A Unix box: tools in [/opt/brr/bin], three inputs, one of them bad. *)
Definition unix_world : World :=
  {| w_dirs := ["/opt/brr"; "/opt/brr/bin"; "in"];
     w_files := ["in/a.wav"; "in/bad.wav"; "in/c.WAV"; "in/notes.txt"];
     w_listing := ["a.wav"; "bad.wav"; "c.WAV"; "notes.txt"];
     w_cygwin_root := None;
     w_locks := 0 |}.

Definition unix_args : Args :=
  {| arg_brrtools := "/opt/brr"; arg_indir := "in"; arg_outdir := "out";
     arg_rate := 16000 |}.

(** The same box, converting in place. *)
Definition inplace_args : Args :=
  {| arg_brrtools := "/opt/brr"; arg_indir := "in"; arg_outdir := "in/";
     arg_rate := 16000 |}.

(** Two inputs that differ in the letter case of the extension only. *)
Definition twin_world : World :=
  {| w_dirs := ["/opt/brr"; "/opt/brr/bin"; "in"; "out"];
     w_files := ["in/a.wav"; "in/a.WAV"];
     w_listing := ["a.wav"; "a.WAV"];
     w_cygwin_root := None;
     w_locks := 0 |}.

(** No input directory at all. *)
Definition empty_world : World :=
  {| w_dirs := []; w_files := []; w_listing := [];
     w_cygwin_root := None; w_locks := 0 |}.

Definition unix_self : BatchProcessor :=
  {| infiles := map (make_child_relpath (Path posix_flavour "in"))
                    ["a.wav"; "bad.wav"; "c.WAV"];
     outpath := Path posix_flavour "out";
     rate := 16000;
     brrtools_bin := Path posix_flavour "/opt/brr/bin";
     cygwin_bash := None |}.

(** The object that [__init__] builds from [inplace_args]. *)
Definition inplace_self : BatchProcessor :=
  {| infiles := map (make_child_relpath (Path posix_flavour "in"))
                    ["a.wav"; "bad.wav"; "c.WAV"];
     outpath := Path posix_flavour "in";
     rate := 16000;
     brrtools_bin := Path posix_flavour "/opt/brr/bin";
     cygwin_bash := None |}.

(** The object that [__init__] builds in [twin_world]. *)
Definition twin_self : BatchProcessor :=
  {| infiles := map (make_child_relpath (Path posix_flavour "in"))
                    ["a.wav"; "a.WAV"];
     outpath := Path posix_flavour "out";
     rate := 16000;
     brrtools_bin := Path posix_flavour "/opt/brr/bin";
     cygwin_bash := None |}.

Definition in_dir (entry : string) : PurePath :=
  make_child_relpath (Path posix_flavour "in") entry.

(** The Unix box again, where the next three deletions are refused. *)
Definition busy_world : World :=
  {| w_dirs := w_dirs unix_world; w_files := w_files unix_world;
     w_listing := w_listing unix_world; w_cygwin_root := None;
     w_locks := 3 |}.

(** And where every deletion is refused. *)
Definition stuck_world : World :=
  {| w_dirs := w_dirs unix_world; w_files := w_files unix_world;
     w_listing := w_listing unix_world; w_cygwin_root := None;
     w_locks := 100 |}.


Definition cwd_c : PurePath := Path windows_flavour "C:/work".

(** The inputs this machine's encoder rejects. *)
Definition mentions_bad (infile : PurePath) : bool :=
  contains "bad" (str posix_flavour infile).

(** A Windows box with Cygwin in its usual place, the tools under
    [C:/brr] and one input. *)
Definition win (p : string) : string :=
  str windows_flavour (Path windows_flavour p).


Definition windows_args : Args :=
  {| arg_brrtools := "C:/brr"; arg_indir := "C:/in"; arg_outdir := "C:/out";
     arg_rate := 16000 |}.


(** A Unix box where the output path is a regular file. *)
Definition clash_world : World :=
  {| w_dirs := ["/opt/brr"; "/opt/brr/bin"; "in"];
     w_files := ["in/a.wav"; "out"];
     w_listing := ["a.wav"];
     w_cygwin_root := None;
     w_locks := 0 |}.




(** A Windows box whose [CYGWIN_ROOT] names a Cygwin that is there, beside
    the one in the usual place. *)
Definition rooted_world : World :=
  {| w_dirs := [];
     w_files := [win "C:/cygwin64/bin/bash.exe"; win "E:/cyg/bin/bash.exe"];
     w_listing := [];
     w_cygwin_root := Some "E:/cyg";
     w_locks := 0 |}.

(** A machine on which no program can be started. *)
Definition broken_machine (pf : Platform) : OS World :=
  {| sys_platform := pf;
     path_is_dir := path_is_dir (machine pf);
     path_is_file := path_is_file (machine pf);
     path_exists := path_exists (machine pf);
     os_listdir := os_listdir (machine pf);
     path_resolve := path_resolve (machine pf);
     os_environ_get := os_environ_get (machine pf);
     os_makedirs := os_makedirs (machine pf);
     os_remove_file := os_remove_file (machine pf);
     time_sleep := time_sleep (machine pf);
     subprocess_exec := fun w _ => (inl (OSError "cannot start"), w) |}.

End Machine.

(* ================================================================== *)
(** * Facts about strings *)
(* ================================================================== *)

Module PyStrFacts.
Import PyStr.

Lemma mem_append c a b : mem c (a ++ b) = mem c a || mem c b.
Proof.
  induction a as [|x a IH]; simpl; [reflexivity|].
  rewrite IH. now rewrite orb_assoc.
Qed.

Lemma take_drop n s : take n s ++ drop n s = s.
Proof.
  revert s. induction n as [|n IH]; intros [|c s]; simpl; try reflexivity.
  now rewrite IH.
Qed.

Lemma mem_take c n s : mem c s = false -> mem c (take n s) = false.
Proof.
  intros H. rewrite <- (take_drop n s), mem_append in H.
  now apply orb_false_iff in H.
Qed.


Lemma append_assoc a b c : (a ++ b) ++ c = a ++ (b ++ c).
Proof. induction a; simpl; congruence. Qed.

Lemma length_append a b : String.length (a ++ b) = String.length a + String.length b.
Proof. induction a; simpl; congruence. Qed.

(** [++] cancels on the right. *)
Lemma append_inj_r a b c : a ++ c = b ++ c -> a = b.
Proof.
  revert b. induction a as [|x a IH]; intros [|y b] H; simpl in H.
  - reflexivity.
  - apply (f_equal String.length) in H. simpl in H.
    rewrite length_append in H. lia.
  - apply (f_equal String.length) in H. simpl in H.
    rewrite length_append in H. lia.
  - injection H as -> H. f_equal. now apply IH.
Qed.

Lemma truthy_append_r a b : truthy b = true -> truthy (a ++ b) = true.
Proof. destruct a; simpl; [trivial|reflexivity]. Qed.

Lemma split_no_sep c s : mem c s = false -> split c s = [s].
Proof.
  induction s as [|x s IH]; simpl; [reflexivity|].
  intros H. apply orb_false_iff in H as [Hx Hs].
  rewrite Hx, (IH Hs). reflexivity.
Qed.

Lemma split_append c a b :
  mem c a = false -> split c (a ++ String c b) = a :: split c b.
Proof.
  induction a as [|x a IH]; simpl.
  - intros _. now rewrite Ascii.eqb_refl.
  - intros H. apply orb_false_iff in H as [Hx Ha].
    rewrite Hx, (IH Ha). reflexivity.
Qed.

(** Splitting what [join] glued gives the pieces back. *)
Lemma split_join c x l :
  forallb (fun s => negb (mem c s)) (x :: l) = true ->
  split c (join (str1 c) (x :: l)) = x :: l.
Proof.
  revert x. induction l as [|y l IH]; intros x H.
  - simpl in *. apply andb_true_iff in H as [H _].
    apply negb_true_iff in H. now apply split_no_sep.
  - change (join (str1 c) (x :: y :: l))
      with (x ++ String c (join (str1 c) (y :: l))).
    simpl in H. apply andb_true_iff in H as [Hx H].
    apply negb_true_iff in Hx.
    rewrite (split_append _ _ _ Hx). f_equal. now apply IH.
Qed.

Lemma mem_join c sep l :
  mem c sep = false ->
  forallb (fun s => negb (mem c s)) l = true ->
  mem c (join sep l) = false.
Proof.
  intros Hsep. induction l as [|x l IH]; [reflexivity|].
  intros H. simpl in H. apply andb_true_iff in H as [Hx H].
  apply negb_true_iff in Hx.
  destruct l as [|y l]; [exact Hx|].
  change (join sep (x :: y :: l)) with (x ++ sep ++ join sep (y :: l)).
  rewrite !mem_append, Hx, Hsep, (IH H). reflexivity.
Qed.

Lemma replace_char_append o n a b :
  replace_char o n (a ++ b) = replace_char o n a ++ replace_char o n b.
Proof. induction a; simpl; congruence. Qed.

Lemma replace_char_id o n s : mem o s = false -> replace_char o n s = s.
Proof.
  induction s as [|x s IH]; simpl; [reflexivity|].
  intros H. apply orb_false_iff in H as [Hx Hs].
  rewrite Hx, (IH Hs). reflexivity.
Qed.

Lemma replace_char_join o n l :
  forallb (fun s => negb (mem o s)) l = true ->
  replace_char o n (join (str1 o) l) = join (str1 n) l.
Proof.
  induction l as [|x l IH]; [reflexivity|].
  intros H. simpl in H. apply andb_true_iff in H as [Hx H].
  apply negb_true_iff in Hx.
  destruct l as [|y l]; [now apply replace_char_id|].
  change (join (str1 o) (x :: y :: l))
    with (x ++ str1 o ++ join (str1 o) (y :: l)).
  change (join (str1 n) (x :: y :: l))
    with (x ++ str1 n ++ join (str1 n) (y :: l)).
  rewrite !replace_char_append, (replace_char_id _ _ _ Hx), (IH H).
  simpl. now rewrite Ascii.eqb_refl.
Qed.

Lemma mem_replace_char o n s :
  o <> n -> mem o (replace_char o n s) = false.
Proof.
  intros Hon. induction s as [|x s IH]; simpl; [reflexivity|].
  rewrite IH, orb_false_r.
  destruct (Ascii.eqb_spec x o) as [->|Hx].
  - apply Ascii.eqb_neq. congruence.
  - now apply Ascii.eqb_neq.
Qed.


Lemma string_eqb_false_length a b :
  String.length a <> String.length b -> (a =? b)%string = false.
Proof. intros H. apply String.eqb_neq. congruence. Qed.

End PyStrFacts.

(* ================================================================== *)
(** * Facts about paths *)
(* ================================================================== *)

Module PathlibFacts.
Import PyStr PyStrFacts Pathlib Effects Spec.

Lemma str1_eqb c d : (str1 c =? str1 d)%string = Ascii.eqb c d.
Proof. unfold str1. simpl. now destruct (Ascii.eqb c d). Qed.

Lemma split_sep_free c s :
  forallb (fun x => negb (mem c x)) (split c s) = true.
Proof.
  induction s as [|a s IH]; simpl; [reflexivity|].
  destruct (Ascii.eqb a c) eqn:E; simpl; [exact IH|].
  destruct (split c s) as [|w ws]; simpl in *; now rewrite E.
Qed.

Lemma forallb_filter {A} (f g : A -> bool) l :
  forallb f l = true -> forallb f (filter g l) = true.
Proof.
  induction l as [|x l IH]; simpl; [trivial|].
  intros H. apply andb_true_iff in H as [Hx H].
  destruct (g x); simpl; [rewrite Hx|]; auto.
Qed.

Lemma forallb_filter_self {A} (g : A -> bool) l :
  forallb g (filter g l) = true.
Proof.
  induction l as [|x l IH]; simpl; [trivial|].
  destruct (g x) eqn:E; simpl; [rewrite E|]; auto.
Qed.

Lemma forallb_impl {A} (f g : A -> bool) l :
  (forall x, f x = true -> g x = true) ->
  forallb f l = true -> forallb g l = true.
Proof.
  intros Hfg. induction l as [|x l IH]; simpl; [trivial|].
  intros H. apply andb_true_iff in H as [Hx H].
  rewrite (Hfg _ Hx). simpl. auto.
Qed.

Lemma forallb_and {A} (f g : A -> bool) l :
  forallb f l = true -> forallb g l = true ->
  forallb (fun x => f x && g x) l = true.
Proof.
  induction l as [|x l IH]; simpl; [trivial|].
  intros Hf Hg. apply andb_true_iff in Hf as [-> Hf].
  apply andb_true_iff in Hg as [-> Hg]. simpl. auto.
Qed.

Lemma parsed_components_wf fl rel :
  forallb (wf_component fl) (filter keep_component (split (sep fl) rel)) = true.
Proof.
  unfold wf_component. apply forallb_and.
  - apply forallb_impl with (f := keep_component).
    + unfold keep_component. intros x H. now apply andb_true_iff in H.
    + apply forallb_filter_self.
  - apply forallb_filter, split_sep_free.
Qed.

(** Whatever string is parsed, the result is a well-formed path. *)
Lemma parse_parts_wf fl s : wf fl (parse_parts fl s) = true.
Proof.
  unfold parse_parts.
  destruct (splitroot fl _) as [[drv rt] rel].
  pose proof (parsed_components_wf fl rel) as Hc.
  unfold wf, tail, anchored. simpl.
  destruct (truthy drv || truthy rt); simpl.
  - now rewrite String.eqb_refl.
  - exact Hc.
Qed.

(** A well-formed anchored path has its anchor in [parts]. *)
Lemma wf_parts_nonempty fl p :
  wf fl p = true -> anchored p = true -> parts p <> [].
Proof.
  unfold wf. intros H Ha. rewrite Ha in H.
  destruct (parts p); [discriminate|congruence].
Qed.

Lemma anchored_child p e : anchored (make_child_relpath p e) = anchored p.
Proof. reflexivity. Qed.

Lemma name_child fl p e :
  wf fl p = true -> name (make_child_relpath p e) = e.
Proof.
  intros Hwf. unfold name. rewrite anchored_child.
  cbn [parts make_child_relpath].
  rewrite last_last.
  assert (E : (List.length (parts p ++ [e])%list
               =? (if anchored p then 1 else 0)) = false).
  { apply Nat.eqb_neq. rewrite length_app. cbn [List.length].
    destruct (anchored p) eqn:Ha; [|lia].
    pose proof (wf_parts_nonempty _ _ Hwf Ha) as Hne.
    destruct (parts p); [congruence|]. cbn [List.length]. lia. }
  now rewrite E.
Qed.

Lemma parent_child fl p e :
  wf fl p = true -> parent (make_child_relpath p e) = p.
Proof.
  intros Hwf. unfold parent. rewrite anchored_child.
  cbn [parts drive root make_child_relpath].
  rewrite removelast_last.
  assert (E : (List.length (parts p ++ [e])%list =? 1) && anchored p = false).
  { destruct (anchored p) eqn:Ha; [|apply andb_false_r].
    rewrite andb_true_r. apply Nat.eqb_neq. rewrite length_app.
    cbn [List.length].
    pose proof (wf_parts_nonempty _ _ Hwf Ha) as Hne.
    destruct (parts p); [congruence|]. cbn [List.length]. lia. }
  rewrite E. now destruct p.
Qed.

(** ** Parsing a directory entry *)

Lemma valid_entry_inv pf e :
  valid_entry pf e = true ->
  truthy e = true /\ (e =? ".")%string = false /\ mem slash e = false
  /\ (pf = Win32 -> mem bslash e = false /\ mem colon e = false).
Proof.
  unfold valid_entry. intros H.
  apply andb_true_iff in H as [H Hpf].
  apply andb_true_iff in H as [H Hs].
  apply andb_true_iff in H as [H _].
  apply andb_true_iff in H as [Ht Hd].
  apply negb_true_iff in Hd, Hs.
  split; [exact Ht|]. split; [exact Hd|]. split; [exact Hs|].
  intros ->. apply andb_true_iff in Hpf as [Hb Hc].
  apply negb_true_iff in Hb, Hc. now split.
Qed.

Lemma posix_splitroot_plain s :
  mem slash s = false -> posix_splitroot s = ("", "", s).
Proof.
  destruct s as [|c s]; [reflexivity|]. simpl.
  intros H. apply orb_false_iff in H as [-> _]. reflexivity.
Qed.

Lemma nt_splitroot_entry s :
  mem bslash s = false -> mem colon s = false ->
  nt_splitroot s = ("", "", s).
Proof.
  intros Hb Hc.
  destruct s as [|c1 [|c2 s]]; [reflexivity| |].
  - simpl in Hb. apply orb_false_iff in Hb as [Hb _].
    unfold nt_splitroot, nt_splitroot_plain, slice, nt_sep. simpl.
    now rewrite Hb.
  - simpl in Hb, Hc.
    apply orb_false_iff in Hb as [Hb1 Hb]. apply orb_false_iff in Hb as [Hb2 _].
    apply orb_false_iff in Hc as [_ Hc]. apply orb_false_iff in Hc as [Hc2 _].
    unfold nt_splitroot, nt_splitroot_plain, slice, nt_sep. simpl.
    repeat (rewrite ?Hb1, ?Hb2, ?Hc2; simpl). reflexivity.
Qed.

(** A directory entry parses to itself, as one relative component. *)
Lemma parse_entry pf e :
  valid_entry pf e = true ->
  parse_parts (flavour_of pf) e = {| drive := ""; root := ""; parts := [e] |}.
Proof.
  intros H. apply valid_entry_inv in H as (Ht & Hd & Hs & Hw).
  unfold parse_parts. destruct pf; simpl.
  - destruct (Hw eq_refl) as [Hb Hc].
    rewrite (replace_char_id _ _ _ Hs), (nt_splitroot_entry _ Hb Hc).
    simpl. rewrite (split_no_sep _ _ Hb). simpl.
    unfold keep_component. now rewrite Ht, Hd.
  - rewrite (posix_splitroot_plain _ Hs). simpl.
    rewrite (split_no_sep _ _ Hs). simpl.
    unfold keep_component. now rewrite Ht, Hd.
Qed.

(** Joining a directory with an entry appends the entry. *)
Lemma truediv_entry pf p e :
  valid_entry pf e = true ->
  truediv (flavour_of pf) p e = make_child_relpath p e.
Proof.
  intros H. unfold truediv. rewrite (parse_entry _ _ H).
  reflexivity.
Qed.

(** ** Stems *)

Lemma mem_stem c p : mem c (name p) = false -> mem c (stem p) = false.
Proof.
  unfold stem. intros H.
  destruct (_ && _); [now apply mem_take|exact H].
Qed.

(** The name of the temporary file is a valid entry when the input's is. *)
Lemma valid_brr_name pf p :
  valid_entry pf (name p) = true ->
  valid_entry pf (stem p ++ ".brr") = true.
Proof.
  intros H. apply valid_entry_inv in H as (Ht & Hd & Hs & Hw).
  unfold valid_entry.
  rewrite truthy_append_r by reflexivity.
  rewrite !string_eqb_false_length
    by (rewrite length_append; simpl; lia).
  rewrite mem_append, (mem_stem _ _ Hs). simpl.
  destruct pf; [|reflexivity].
  destruct (Hw eq_refl) as [Hb Hc].
  rewrite !mem_append, (mem_stem _ _ Hb), (mem_stem _ _ Hc). reflexivity.
Qed.

End PathlibFacts.

(* ================================================================== *)
(** * Facts about the script *)
(* ================================================================== *)

Module ScriptFacts.
Import PyStr PyStrFacts Pathlib PathlibFacts Effects BatchConvert Spec.

(** Unfolds the monad down to pairs of a result and a state. *)
Ltac monad_unfold :=
  cbv beta iota zeta delta
    [bind ret raise diverge try_except emit ask act
     print eprint print_exc is_dir is_file exists_ iterdir
     environ_get makedirs remove sleep subprocess_run] in *.

Section Setup.
Context {W : Type} (os : OS W).

Lemma get_infiles_inv indir st files st1 :
  get_infiles os indir st = (Ok files, st1) ->
  world st1 = world st /\
  exists entries,
    os_listdir os (world st) (Path (fl os) indir) = inr entries /\
    files = filter (is_wav os (world st))
              (map (make_child_relpath (Path (fl os) indir)) entries).
Proof.
  unfold get_infiles. monad_unfold.
  destruct (path_is_dir os (world st) _); simpl; [|discriminate].
  destruct (os_listdir os (world st) _) as [e|entries]; simpl; [discriminate|].
  destruct (filter _ _) as [|f fs] eqn:E; simpl; [discriminate|].
  intros H. injection H as <- <-. simpl. split; [reflexivity|].
  exists entries. split; [reflexivity|]. now rewrite E.
Qed.

Lemma get_outpath_inv outdir st out st1 :
  get_outpath os outdir st = (Ok out, st1) -> out = Path (fl os) outdir.
Proof.
  unfold get_outpath. monad_unfold.
  destruct (path_exists os (world st) _); simpl.
  - destruct (path_is_dir os (world st) _); simpl; [|discriminate].
    now intros [= <- _].
  - destruct (os_makedirs os (world st) _) as [[e|] w']; simpl; [discriminate|].
    destruct (path_is_dir os w' _); simpl; [|discriminate].
    now intros [= <- _].
Qed.

(** What a successful [__init__] leaves in the object. *)
Lemma init_inv brr indir outdir r st self st' :
  BatchProcessor_init os brr indir outdir r st = (Ok self, st') ->
  outpath self = Path (fl os) outdir /\
  rate self = r /\
  exists entries,
    os_listdir os (world st) (Path (fl os) indir) = inr entries /\
    infiles self = filter (is_wav os (world st))
                     (map (make_child_relpath (Path (fl os) indir)) entries).
Proof.
  unfold BatchProcessor_init, bind at 1.
  destruct (get_infiles os indir st) as [[files| |] st1] eqn:Ei; try discriminate.
  unfold bind at 1.
  destruct (get_outpath os outdir st1) as [[out| |] st2] eqn:Eo; try discriminate.
  unfold bind at 1.
  destruct (get_brrtools_bin os brr st2) as [[bin| |] st3] eqn:Eb; try discriminate.
  apply get_infiles_inv in Ei as (_ & entries & Hl & Hf).
  apply get_outpath_inv in Eo.
  intros H.
  assert (Hs : outpath self = out /\ rate self = r /\ infiles self = files).
  { destruct (sys_platform os).
    - unfold bind at 1 in H.
      destruct (_find_cygwin_bash os st3) as [[bash| |] st4]; try discriminate.
      monad_unfold. simpl in H. now injection H as <- _.
    - monad_unfold. now injection H as <- _. }
  destruct Hs as (-> & -> & ->).
  split; [exact Eo|]. split; [reflexivity|]. now exists entries.
Qed.

(** A discovered file is a child of the input directory whose entry
    name ends in the wanted extension. *)
Lemma discovered_inv w dir entries f :
  In f (filter (is_wav os w) (map (make_child_relpath dir) entries)) ->
  exists e, In e entries /\ f = make_child_relpath dir e
            /\ (lower (suffix f) =? ".wav")%string = true.
Proof.
  intros H. apply filter_In in H as [H Hw].
  apply in_map_iff in H as (e & <- & He).
  exists e. split; [exact He|]. split; [reflexivity|].
  unfold is_wav in Hw. now apply andb_true_iff in Hw.
Qed.

Lemma job_tmp_brr_child self f :
  valid_entry (sys_platform os) (name f) = true ->
  job_tmp_brr os self f = make_child_relpath (outpath self) (stem f ++ ".brr").
Proof.
  intros H. unfold job_tmp_brr, fl.
  apply truediv_entry, valid_brr_name, H.
Qed.

Lemma job_out_wav_child self f :
  valid_entry (sys_platform os) (name f) = true ->
  job_out_wav os self f = make_child_relpath (outpath self) (name f).
Proof. intros H. unfold job_out_wav, fl. now apply truediv_entry. Qed.

(** The discovered files of a run, with what is known of each. *)
Lemma init_discovered brr indir outdir r st self st' f :
  BatchProcessor_init os brr indir outdir r st = (Ok self, st') ->
  listing_valid_at os (world st) (Path (fl os) indir) = true ->
  In f (infiles self) ->
  outpath self = Path (fl os) outdir /\
  exists e, f = make_child_relpath (Path (fl os) indir) e
            /\ name f = e
            /\ valid_entry (sys_platform os) e = true.
Proof.
  intros Hi Hv Hf.
  apply init_inv in Hi as (Ho & _ & entries & Hl & Hfs).
  split; [exact Ho|].
  rewrite Hfs in Hf. apply discovered_inv in Hf as (e & He & -> & _).
  exists e. split; [reflexivity|].
  split; [apply name_child with (fl := fl os), parse_parts_wf|].
  unfold listing_valid_at in Hv. rewrite Hl in Hv.
  now apply (proj1 (forallb_forall _ _) Hv).
Qed.

End Setup.

End ScriptFacts.

(* ================================================================== *)
(** * The paths of a conversion job *)
(* ================================================================== *)

Module JobPaths.
Import PyStr PyStrFacts Pathlib PathlibFacts Effects BatchConvert Spec.
Import ScriptFacts Machine.

Lemma make_child_inj p a b :
  make_child_relpath p a = make_child_relpath p b -> a = b.
Proof.
  unfold make_child_relpath. intros [= H].
  apply app_inv_head in H. congruence.
Qed.

(** C2, as the script has it.  After a successful start-up over a
    directory listing of valid names, two discovered files have the same
    temporary path exactly when they have the same stem; the temporary
    path of every job is a direct child of the output directory, named by
    the stem followed by the extension brr. *)
Theorem temp_path_by_stem {W} (os : OS W) brr indir outdir r st self st' f1 f2 :
  BatchProcessor_init os brr indir outdir r st = (Ok self, st') ->
  listing_valid_at os (world st) (Path (fl os) indir) = true ->
  In f1 (infiles self) -> In f2 (infiles self) ->
  (job_tmp_brr os self f1 = job_tmp_brr os self f2 <-> stem f1 = stem f2)
  /\ parent (job_tmp_brr os self f1) = outpath self
  /\ name (job_tmp_brr os self f1) = stem f1 ++ ".brr".
Proof.
  intros Hi Hv H1 H2.
  destruct (init_discovered os _ _ _ _ _ _ _ _ Hi Hv H1) as (Ho & e1 & _ & Hn1 & Hv1).
  destruct (init_discovered os _ _ _ _ _ _ _ _ Hi Hv H2) as (_ & e2 & _ & Hn2 & Hv2).
  rewrite <- Hn1 in Hv1. rewrite <- Hn2 in Hv2.
  rewrite (job_tmp_brr_child os self f1 Hv1), (job_tmp_brr_child os self f2 Hv2).
  assert (Hwf : wf (fl os) (outpath self) = true)
    by (rewrite Ho; apply parse_parts_wf).
  split; [split|split].
  - intros H. apply make_child_inj in H. now apply append_inj_r in H.
  - now intros ->.
  - now apply parent_child with (fl := fl os).
  - now apply name_child with (fl := fl os).
Qed.

Lemma temp_path_by_stem_witness :
  (job_tmp_brr (machine Unix) unix_self (in_dir "a.wav")
   = job_tmp_brr (machine Unix) unix_self (in_dir "c.WAV")
   <-> stem (in_dir "a.wav") = stem (in_dir "c.WAV"))
  /\ parent (job_tmp_brr (machine Unix) unix_self (in_dir "a.wav"))
     = outpath unix_self
  /\ name (job_tmp_brr (machine Unix) unix_self (in_dir "a.wav"))
     = stem (in_dir "a.wav") ++ ".brr".
Proof.
  eapply (temp_path_by_stem (machine Unix) "/opt/brr" "in" "out" 16000
            (start unix_world) unix_self).
  - vm_compute. reflexivity.
  - vm_compute. reflexivity.
  - simpl. auto.
  - simpl. auto.
Defined.

(** C2 as stated fails: [a.wav] and [a.WAV] are two discovered files of
    one run, and both jobs use the temporary path [out/a.brr]. *)
Lemma temp_path_collision :
  BatchProcessor_init (machine Unix) "/opt/brr" "in" "out" 16000
    (start twin_world)
  = (Ok twin_self,
     {| world := twin_world;
        trace := [EvStdout "Found 2 WAV files to process"] |})
  /\ ~ (forall f1 f2,
          In f1 (infiles twin_self) -> In f2 (infiles twin_self) ->
          f1 <> f2 ->
          job_tmp_brr (machine Unix) twin_self f1
          <> job_tmp_brr (machine Unix) twin_self f2).
Proof.
  split; [vm_compute; reflexivity|].
  intros H.
  apply (H (in_dir "a.wav") (in_dir "a.WAV")).
  - simpl. auto.
  - simpl. auto.
  - vm_compute. discriminate.
  - vm_compute. reflexivity.
Qed.

(** C10.  When the output directory parses to the same path as the input
    directory, the output path of every job is its input file, so the
    decoder is told to write onto the file the encoder read. *)
Theorem in_place_overwrite {W} (os : OS W) brr indir outdir r st self st' f :
  BatchProcessor_init os brr indir outdir r st = (Ok self, st') ->
  listing_valid_at os (world st) (Path (fl os) indir) = true ->
  Path (fl os) outdir = Path (fl os) indir ->
  In f (infiles self) ->
  job_out_wav os self f = f
  /\ str (fl os) (job_out_wav os self f) = job_in_wav os f
  /\ nth 4 (decode_argv_native os self f) ""
     = nth 2 (encode_argv_native os self f) "".
Proof.
  intros Hi Hv Hsame Hf.
  destruct (init_discovered os _ _ _ _ _ _ _ _ Hi Hv Hf) as (Ho & e & He & Hn & Hve).
  assert (E : job_out_wav os self f = f).
  { rewrite job_out_wav_child by (now rewrite Hn).
    rewrite Ho, Hsame, Hn. now symmetry. }
  split; [exact E|].
  split; [now rewrite E|].
  unfold decode_argv_native, encode_argv_native. simpl. now rewrite E.
Qed.

Lemma in_place_overwrite_witness :
  job_out_wav (machine Unix) inplace_self (in_dir "a.wav") = in_dir "a.wav"
  /\ str (fl (machine Unix)) (job_out_wav (machine Unix) inplace_self (in_dir "a.wav"))
     = job_in_wav (machine Unix) (in_dir "a.wav")
  /\ nth 4 (decode_argv_native (machine Unix) inplace_self (in_dir "a.wav")) ""
     = nth 2 (encode_argv_native (machine Unix) inplace_self (in_dir "a.wav")) "".
Proof.
  eapply (in_place_overwrite (machine Unix) "/opt/brr" "in" "in/" 16000
            (start unix_world) inplace_self).
  - vm_compute. reflexivity.
  - vm_compute. reflexivity.
  - vm_compute. reflexivity.
  - simpl. auto.
Defined.

End JobPaths.

(* ================================================================== *)
(** * Path translation *)
(* ================================================================== *)

Module Translation.
Import PyStr PyStrFacts Pathlib PathlibFacts Effects BatchConvert Spec.
Import Machine.

Lemma letter_plain x :
  is_letter x = true ->
  Ascii.eqb x slash = false /\ Ascii.eqb x bslash = false
  /\ Ascii.eqb x dot = false.
Proof.
  destruct x as [[] [] [] [] [] [] [] []]; vm_compute; intuition congruence.
Qed.

Lemma lower_letter x : is_letter x = true -> is_letter (lower_ascii x) = true.
Proof.
  destruct x as [[] [] [] [] [] [] [] []]; vm_compute; congruence.
Qed.

Lemma plain_letter x : is_letter x = true -> plain_component (str1 x) = true.
Proof.
  destruct x as [[] [] [] [] [] [] [] []]; vm_compute; congruence.
Qed.

Lemma plain_component_inv c :
  plain_component c = true ->
  keep_component c = true /\ (c =? "..")%string = false
  /\ mem slash c = false /\ mem bslash c = false.
Proof.
  unfold plain_component, keep_component. intros H.
  apply andb_true_iff in H as [H Hb].
  apply andb_true_iff in H as [H Hs].
  apply andb_true_iff in H as [H Hdd].
  apply negb_true_iff in Hb, Hs, Hdd.
  now rewrite H.
Qed.

Lemma plain_forall (P : string -> bool) l :
  (forall c, plain_component c = true -> P c = true) ->
  forallb plain_component l = true -> forallb P l = true.
Proof. apply forallb_impl. Qed.

Lemma filter_all {A} (f : A -> bool) l :
  forallb f l = true -> filter f l = l.
Proof.
  induction l as [|x l IH]; simpl; [trivial|].
  intros H. apply andb_true_iff in H as [-> H]. now rewrite IH.
Qed.

Lemma normpath_plain stack l :
  forallb (fun c => negb (c =? "..")%string) l = true ->
  normpath_components stack l = (rev stack ++ l)%list.
Proof.
  revert stack. induction l as [|c l IH]; intros stack H; simpl.
  - now rewrite app_nil_r.
  - simpl in H. apply andb_true_iff in H as [Hc H].
    apply negb_true_iff in Hc. rewrite Hc, (IH _ H). simpl.
    now rewrite <- app_assoc.
Qed.

Lemma nt_splitroot_rooted c s :
  Ascii.eqb c bslash = false ->
  nt_splitroot (String bslash (String c s)) = ("", nt_sep, String c s).
Proof.
  intros H.
  unfold nt_splitroot, nt_splitroot_plain, slice, nt_sep. simpl.
  repeat (rewrite ?H; simpl).
  change (is_letter bslash) with false. rewrite andb_false_r.
  simpl. now rewrite H.
Qed.

(** The components that parsing finds behind the root of a mount path. *)
Lemma parsed_mount_components comps :
  forallb plain_component comps = true ->
  filter keep_component (split bslash (join (str1 bslash) comps)) = comps.
Proof.
  intros H. destruct comps as [|c comps]; [reflexivity|].
  rewrite split_join.
  - apply filter_all. revert H. apply plain_forall.
    intros x Hx. now apply plain_component_inv in Hx.
  - revert H. apply plain_forall.
    intros x Hx. apply plain_component_inv in Hx as (_ & _ & _ & ->).
    reflexivity.
Qed.

(** How Windows reads a mount path: a root without a drive. *)
Lemma Path_mount_path x comps :
  is_letter x = true ->
  forallb plain_component comps = true ->
  Path windows_flavour (mount_path x comps)
  = {| drive := ""; root := nt_sep;
       parts := nt_sep :: "cygdrive" :: str1 x :: comps |}.
Proof.
  intros Hx Hc. destruct (letter_plain x Hx) as (Hs & Hb & Hd).
  unfold Path, parse_parts, mount_path.
  cbn [altsep windows_flavour sep splitroot].
  assert (E : replace_char slash bslash
                ("/cygdrive/" ++ str1 x ++ "/" ++ join "/" comps)
              = String bslash
                  ("cygdrive" ++ String bslash
                     (str1 x ++ String bslash (join (str1 bslash) comps)))).
  { change ("/cygdrive/" ++ str1 x ++ "/" ++ join "/" comps)
      with ("/cygdrive/" ++ str1 x ++ "/" ++ join (str1 slash) comps).
    rewrite !replace_char_append, replace_char_join.
    - simpl. now rewrite Hs.
    - revert Hc. apply plain_forall. intros c Hc.
      apply plain_component_inv in Hc as (_ & _ & -> & _). reflexivity. }
  rewrite E.
  change (String bslash ("cygdrive" ++ ?t)) with (String bslash (String "c" ("ygdrive" ++ t))).
  rewrite nt_splitroot_rooted by reflexivity.
  change (String "c" ("ygdrive" ++ ?t)) with ("cygdrive" ++ t).
  rewrite split_append by reflexivity.
  rewrite split_append by (simpl; now rewrite Hb).
  cbn [filter]. 
  assert (K1 : keep_component "cygdrive" = true) by reflexivity.
  assert (K2 : keep_component (str1 x) = true).
  { apply plain_component_inv. now apply plain_letter. }
  rewrite K1, K2, (parsed_mount_components _ Hc).
  reflexivity.
Qed.

Lemma translate_mount_path cwd D x comps :
  drive cwd = String D (str1 colon) ->
  is_letter x = true ->
  forallb plain_component comps = true ->
  _windows_to_cygwin_path windows_flavour (nt_resolve cwd) (mount_path x comps)
  = mount_path (lower_ascii D) ("cygdrive" :: str1 x :: comps).
Proof.
  intros Hd Hx Hc.
  unfold _windows_to_cygwin_path.
  rewrite (Path_mount_path _ _ Hx Hc).
  unfold nt_resolve, absolute_path, tail, anchored.
  cbn [drive root parts truthy String.eqb negb orb tl nt_sep str1].
  rewrite normpath_plain.
  - rewrite Hd. reflexivity.
  - apply plain_forall.
    + intros c H. apply plain_component_inv in H as (_ & -> & _). reflexivity.
    + cbn [forallb]. rewrite (plain_letter _ Hx), Hc. reflexivity.
Qed.

Lemma length_mount_path d l :
  String.length (mount_path d l) = 12 + String.length (join "/" l).
Proof. reflexivity. Qed.

(** C3, as the script has it.  The translation is a function of the
    resolved path alone.  On Windows a mount path has a root and no drive,
    so resolving it takes the drive of the current directory: the mount
    path of [x] and [comps] is translated to the mount path of the current
    drive letter, lower-cased, and the components [cygdrive], [x], [comps];
    translating once more gives yet another text. *)
Theorem translation_of_mount_path (cwd : PurePath) (D x : ascii)
    (comps : list string) :
  drive cwd = String D (str1 colon) ->
  is_letter D = true ->
  is_letter x = true ->
  forallb plain_component comps = true ->
  (forall fl r1 r2 p,
      r1 (Path fl p) = r2 (Path fl p) ->
      _windows_to_cygwin_path fl r1 p = _windows_to_cygwin_path fl r2 p)
  /\ _windows_to_cygwin_path windows_flavour (nt_resolve cwd) (mount_path x comps)
     = mount_path (lower_ascii D) ("cygdrive" :: str1 x :: comps)
  /\ _windows_to_cygwin_path windows_flavour (nt_resolve cwd)
       (_windows_to_cygwin_path windows_flavour (nt_resolve cwd)
          (mount_path x comps))
     <> _windows_to_cygwin_path windows_flavour (nt_resolve cwd)
          (mount_path x comps).
Proof.
  intros Hd HD Hx Hc.
  split; [|split].
  - intros fl r1 r2 p E. unfold _windows_to_cygwin_path. now rewrite E.
  - now apply translate_mount_path.
  - rewrite (translate_mount_path cwd D x comps Hd Hx Hc).
    rewrite (translate_mount_path cwd D (lower_ascii D)
               ("cygdrive" :: str1 x :: comps) Hd (lower_letter _ HD)).
    + intros E. apply (f_equal String.length) in E.
      rewrite !length_mount_path in E.
      change (join "/" ("cygdrive" :: str1 (lower_ascii D)
                          :: "cygdrive" :: str1 x :: comps))
        with ("cygdrive/" ++ str1 (lower_ascii D) ++ "/"
              ++ join "/" ("cygdrive" :: str1 x :: comps)) in E.
      rewrite !length_append in E. simpl in E. lia.
    + cbn [forallb]. rewrite (plain_letter _ Hx), Hc. reflexivity.
Qed.

Lemma translation_of_mount_path_witness :
  (forall fl r1 r2 p,
      r1 (Path fl p) = r2 (Path fl p) ->
      _windows_to_cygwin_path fl r1 p = _windows_to_cygwin_path fl r2 p)
  /\ _windows_to_cygwin_path windows_flavour (nt_resolve cwd_c)
       (mount_path "c" ["Users"; "file.wav"])
     = mount_path "c" ["cygdrive"; "c"; "Users"; "file.wav"]
  /\ _windows_to_cygwin_path windows_flavour (nt_resolve cwd_c)
       (_windows_to_cygwin_path windows_flavour (nt_resolve cwd_c)
          (mount_path "c" ["Users"; "file.wav"]))
     <> _windows_to_cygwin_path windows_flavour (nt_resolve cwd_c)
          (mount_path "c" ["Users"; "file.wav"]).
Proof.
  apply (translation_of_mount_path cwd_c "C" "c" ["Users"; "file.wav"]);
    reflexivity.
Defined.

(** C3 as stated fails: the mount path [/cygdrive/c/Users/file.wav] is
    translated, with the current directory on drive C, to
    [/cygdrive/c/cygdrive/c/Users/file.wav], and that text is translated
    to a third one. *)
Lemma translation_not_idempotent :
  _windows_to_cygwin_path windows_flavour (nt_resolve cwd_c)
    "/cygdrive/c/Users/file.wav"
  = "/cygdrive/c/cygdrive/c/Users/file.wav"
  /\ _windows_to_cygwin_path windows_flavour (nt_resolve cwd_c)
       (_windows_to_cygwin_path windows_flavour (nt_resolve cwd_c)
          "/cygdrive/c/Users/file.wav")
     <> _windows_to_cygwin_path windows_flavour (nt_resolve cwd_c)
          "/cygdrive/c/Users/file.wav".
Proof.
  split; [vm_compute; reflexivity|].
  vm_compute. discriminate.
Qed.

Lemma lstrip_plain_join c cs :
  plain_component c = true ->
  lstrip_char slash (join "/" (c :: cs)) = join "/" (c :: cs).
Proof.
  intros H. apply plain_component_inv in H as (Hk & _ & Hs & _).
  destruct c as [|a c]; [discriminate|].
  simpl in Hs. apply orb_false_iff in Hs as [Ha _].
  destruct cs; simpl; now rewrite Ha.
Qed.

(** How POSIX reads a rooted path of plain components. *)
Lemma posix_Path_rooted c cs :
  forallb plain_component (c :: cs) = true ->
  Path posix_flavour (String slash (join "/" (c :: cs)))
  = {| drive := ""; root := "/"; parts := "/" :: c :: cs |}.
Proof.
  intros H.
  assert (Hc : plain_component c = true)
    by (simpl in H; now apply andb_true_iff in H).
  unfold Path, parse_parts. cbn [altsep posix_flavour splitroot sep].
  unfold posix_splitroot. rewrite Ascii.eqb_refl.
  change (lstrip_char slash (String slash ?s)) with (lstrip_char slash s).
  rewrite (lstrip_plain_join _ _ Hc).
  assert (E : (len (String slash (join "/" (c :: cs)))
               - len (join "/" (c :: cs)) =? 2) = false).
  { apply Nat.eqb_neq. unfold len. cbn [String.length]. lia. }
  rewrite E.
  change (join "/" (c :: cs)) with (join (str1 slash) (c :: cs)).
  rewrite split_join.
  - rewrite filter_all; [reflexivity|].
    revert H. apply plain_forall. intros x Hx.
    now apply plain_component_inv in Hx.
  - revert H. apply plain_forall. intros x Hx.
    apply plain_component_inv in Hx as (_ & _ & -> & _). reflexivity.
Qed.

Lemma posix_translate_rooted cwd c cs :
  forallb plain_component (c :: cs) = true ->
  _windows_to_cygwin_path posix_flavour (posix_resolve cwd)
    (String slash (join "/" (c :: cs)))
  = String slash (join "/" (c :: cs)).
Proof.
  intros H. unfold _windows_to_cygwin_path.
  rewrite (posix_Path_rooted _ _ H).
  unfold posix_resolve, tail, anchored.
  cbn [drive root parts truthy String.eqb negb orb tl Ascii.eqb Bool.eqb].
  rewrite normpath_plain.
  - cbn [rev app List.length hd tl len String.length Nat.ltb Nat.leb Nat.eqb andb].
    unfold str, format_parsed_parts, anchored.
    cbn [drive root parts truthy String.eqb negb orb tl Ascii.eqb Bool.eqb
         sep posix_flavour].
    change ("" ++ "/" ++ join (str1 slash) (c :: cs))
      with (String slash (join "/" (c :: cs))).
    cbn [truthy String.eqb negb].
    apply replace_char_id. cbn [mem]. 
    change (Ascii.eqb slash bslash) with false. cbn [orb].
    apply mem_join; [reflexivity|].
    revert H. apply plain_forall. intros x Hx.
    apply plain_component_inv in Hx as (_ & _ & _ & ->). reflexivity.
  - revert H. apply plain_forall. intros x Hx.
    apply plain_component_inv in Hx as (_ & -> & _). reflexivity.
Qed.

(** Under POSIX path rules, where the script never calls it, the
    translation leaves a mount path of at least one component alone and is
    therefore idempotent on it. *)
Lemma posix_translation_idempotent cwd x c cs :
  is_letter x = true ->
  forallb plain_component (c :: cs) = true ->
  _windows_to_cygwin_path posix_flavour (posix_resolve cwd)
    (mount_path x (c :: cs))
  = mount_path x (c :: cs)
  /\ _windows_to_cygwin_path posix_flavour (posix_resolve cwd)
       (_windows_to_cygwin_path posix_flavour (posix_resolve cwd)
          (mount_path x (c :: cs)))
     = _windows_to_cygwin_path posix_flavour (posix_resolve cwd)
         (mount_path x (c :: cs)).
Proof.
  intros Hx H.
  assert (E : mount_path x (c :: cs)
              = String slash (join "/" ("cygdrive" :: str1 x :: c :: cs)))
    by reflexivity.
  assert (Hall : forallb plain_component ("cygdrive" :: str1 x :: c :: cs) = true).
  { cbn [forallb]. rewrite (plain_letter _ Hx).
    cbn [forallb] in H. now rewrite H. }
  rewrite E, !(posix_translate_rooted cwd _ _ Hall). now split.
Qed.
(** The two examples of the function's docstring. *)
Example docstring_users :
  _windows_to_cygwin_path windows_flavour (nt_resolve cwd_c)
    ("C:" ++ nt_sep ++ "Users" ++ nt_sep ++ "file.wav")
  = "/cygdrive/c/Users/file.wav".
Proof. reflexivity. Qed.

Example docstring_music :
  _windows_to_cygwin_path windows_flavour (nt_resolve cwd_c)
    ("D:" ++ nt_sep ++ "Music" ++ nt_sep ++ "song.wav")
  = "/cygdrive/d/Music/song.wav".
Proof. reflexivity. Qed.



End Translation.

(* ================================================================== *)
(** * Deleting the temporary file *)
(* ================================================================== *)

Module Cleanup.
Import PyStr PyStrFacts Pathlib PathlibFacts Effects BatchConvert Spec.
Import ScriptFacts Machine.

Section Retry.
Context {W : Type} (os : OS W).

Lemma attempt_world_shift tmp k w :
  attempt_world os tmp (S k) w
  = attempt_world os tmp k
      (time_sleep os (snd (os_remove_file os w tmp)) 50).
Proof.
  induction k as [|k IH]; [reflexivity|].
  change (attempt_world os tmp (S (S k)) w)
    with (time_sleep os
            (snd (os_remove_file os (attempt_world os tmp (S k) w) tmp)) 50).
  now rewrite IH.
Qed.

Lemma attempt_result_shift tmp k w :
  attempt_result os tmp (S k) w
  = attempt_result os tmp k
      (time_sleep os (snd (os_remove_file os w tmp)) 50).
Proof. unfold attempt_result. now rewrite attempt_world_shift. Qed.

Lemma remove_retry_spec tmp fuel :
  forall retries st,
    retries < 6 -> 6 - retries <= fuel ->
    exists st' errs,
      remove_retry os fuel retries tmp st = (Ok tt, st')
      /\ loop_outcome os tmp retries st st' errs.
Proof.
  induction fuel as [|fuel IH]; intros retries st Hr Hf; [lia|].
  cbn [remove_retry].
  destruct (Nat.ltb_spec retries 6) as [_|]; [|lia].
  monad_unfold.
  destruct (os_remove_file os (world st) tmp) as [[e|] w1] eqn:Er.
  - (* the attempt fails *)
    destruct (Nat.ltb_spec (retries + 1) 6) as [Hlt|Hge].
    + cbn [world trace].
      destruct (IH (retries + 1)
                  {| world := time_sleep os w1 50;
                     trace := ((trace st ++ [EvRemove tmp (Some e)])
                               ++ [EvSleep 50])%list |})
        as (st' & errs & Hrun & Hk & Hshape); [exact Hlt|lia|].
      unfold loop_outcome.
      cbn [world trace] in *.
      exists st', (e :: errs). split; [exact Hrun|].
      assert (Hw : time_sleep os (snd (os_remove_file os (world st) tmp)) 50
                   = time_sleep os w1 50) by (now rewrite Er).
      split.
      * intros [|k] Hlen.
        -- unfold attempt_result. cbn. now rewrite Er.
        -- rewrite attempt_result_shift, Hw. cbn [nth_error].
           apply Hk. cbn in Hlen. lia.
      * cbn [List.length]. rewrite attempt_result_shift, Hw.
        destruct Hshape as [(Hn & Hres & Htr)|(e' & Hn & Hres & Htr)].
        -- left. split; [lia|]. split; [exact Hres|].
           rewrite Htr. cbn. now rewrite <- !app_assoc.
        -- right. exists e'. split; [lia|]. split; [exact Hres|].
           rewrite Htr. cbn. now rewrite <- !app_assoc.
    + exists {| world := w1;
                trace := ((trace st ++ [EvRemove tmp (Some e)])
                          ++ [warning e])%list |}, [].
      split; [reflexivity|]. unfold loop_outcome.
      split; [intros k Hk; cbn in Hk; lia|].
      right. exists e. split; [cbn; lia|].
      split; [unfold attempt_result; cbn; now rewrite Er|].
      cbn. now rewrite <- app_assoc.
  - (* the attempt succeeds *)
    exists {| world := w1; trace := (trace st ++ [EvRemove tmp None])%list |}, [].
    split; [reflexivity|]. unfold loop_outcome.
    split; [intros k Hk; cbn in Hk; lia|].
    left. split; [cbn; lia|].
    split; [unfold attempt_result; cbn; now rewrite Er|reflexivity].
Qed.

(** The deletion step never raises and never runs out of fuel. *)
Lemma delete_tmp_brr_total tmp st :
  exists st', delete_tmp_brr os tmp st = (Ok tt, st').
Proof.
  unfold delete_tmp_brr. monad_unfold.
  destruct (path_exists os (world st) tmp).
  - destruct (remove_retry_spec tmp 6 0 st) as (st' & errs & H & _); [lia|lia|].
    now exists st'.
  - now exists st.
Qed.

Lemma delete_tmp_brr_existing tmp st :
  path_exists os (world st) tmp = true ->
  exists st' errs,
    delete_tmp_brr os tmp st = (Ok tt, st')
    /\ loop_outcome os tmp 0 st st' errs.
Proof.
  intros He. unfold delete_tmp_brr. monad_unfold. rewrite He.
  apply remove_retry_spec; lia.
Qed.

Lemma delete_tmp_brr_missing tmp st :
  path_exists os (world st) tmp = false ->
  delete_tmp_brr os tmp st = (Ok tt, st).
Proof.
  intros He. unfold delete_tmp_brr. monad_unfold. now rewrite He.
Qed.

(** ** One turn of the batch loop *)

Lemma process_file_unfold self infile st :
  process_file os self infile st
  = match run_tools os self infile st with
    | (Ok _, st1) => delete_tmp_brr os (job_tmp_brr os self infile) st1
    | (Raise e, st1) => (Raise e, st1)
    | (Diverge, st1) => (Diverge, st1)
    end.
Proof. reflexivity. Qed.

Lemma batch_loop_ok self infile todo sc ec st st' :
  process_file os self infile st = (Ok tt, st') ->
  batch_loop os self (infile :: todo) sc ec st
  = batch_loop os self todo (sc + 1) ec st'.
Proof.
  intros H. cbn [batch_loop]. unfold bind at 1, try_except, bind at 1.
  rewrite H. reflexivity.
Qed.

Lemma count_removes_app a b :
  count_removes (a ++ b)%list = count_removes a + count_removes b.
Proof. unfold count_removes. now rewrite filter_app, length_app. Qed.

Lemma count_removes_failed tmp errs :
  count_removes (failed_attempts tmp errs) = List.length errs.
Proof.
  induction errs as [|e errs IH]; [reflexivity|].
  unfold failed_attempts in *. cbn [flat_map].
  rewrite count_removes_app, IH. reflexivity.
Qed.

End Retry.

(** C5.  After the two tools have run, with the temporary file present:
    the file is deleted in at most six attempts, a failed attempt other
    than the sixth being followed by a pause of 50 ms; the step never
    raises and the item counts as a success.  When all six attempts fail
    the last event is the warning and nothing more is done to the file;
    when the first three fail and the fourth does not, there are four
    attempts and no warning. *)
Theorem cleanup_retries {W} (os : OS W) self infile st0 st sc ec :
  run_tools os self infile st0 = (Ok tt, st) ->
  path_exists os (world st) (job_tmp_brr os self infile) = true ->
  exists st' errs,
    process_file os self infile st0 = (Ok tt, st')
    /\ batch_loop os self [infile] sc ec st0 = (Ok (sc + 1, ec), st')
    /\ loop_outcome os (job_tmp_brr os self infile) 0 st st' errs
    /\ (exists evs, trace st' = (trace st ++ evs)%list
                    /\ count_removes evs <= 6)
    /\ ((forall k, k < 6 ->
            attempt_result os (job_tmp_brr os self infile) k (world st) <> None) ->
        exists e,
          List.length errs = 5
          /\ trace st' = (trace st
                          ++ failed_attempts (job_tmp_brr os self infile) errs
                          ++ [EvRemove (job_tmp_brr os self infile) (Some e);
                              warning e])%list)
    /\ ((forall k, k < 3 ->
            attempt_result os (job_tmp_brr os self infile) k (world st) <> None) ->
        attempt_result os (job_tmp_brr os self infile) 3 (world st) = None ->
        List.length errs = 3
        /\ trace st' = (trace st
                        ++ failed_attempts (job_tmp_brr os self infile) errs
                        ++ [EvRemove (job_tmp_brr os self infile) None])%list).
Proof.
  intros Hrun Hex.
  set (tmp := job_tmp_brr os self infile) in *.
  destruct (delete_tmp_brr_existing os tmp st Hex) as (st' & errs & Hdel & Hout).
  assert (Hpf : process_file os self infile st0 = (Ok tt, st')).
  { rewrite process_file_unfold, Hrun. exact Hdel. }
  exists st', errs.
  split; [exact Hpf|].
  split; [now rewrite (batch_loop_ok os _ _ _ _ _ _ _ Hpf)|].
  split; [exact Hout|].
  destruct Hout as [Hk Hshape].
  split; [|split].
  - destruct Hshape as [(Hn & _ & Htr)|(e & Hn & _ & Htr)].
    + eexists. split; [exact Htr|].
      rewrite count_removes_app, count_removes_failed. cbn. lia.
    + eexists. split; [exact Htr|].
      rewrite count_removes_app, count_removes_failed. cbn. lia.
  - intros Hall.
    destruct Hshape as [(Hn & Hres & _)|(e & Hn & _ & Htr)].
    + exfalso. apply (Hall (List.length errs)); [lia|exact Hres].
    + exists e. split; [lia|exact Htr].
  - intros H3 Hok.
    assert (Hlen : List.length errs = 3).
    { destruct (Nat.lt_trichotomy (List.length errs) 3) as [Hlt|[Heq|Hgt]];
        [exfalso|exact Heq|exfalso].
      - destruct Hshape as [(_ & Hres & _)|(e & Hn & _ & _)]; [|lia].
        now apply (H3 (List.length errs)).
      - specialize (Hk 3 Hgt). rewrite Hok in Hk.
        symmetry in Hk. apply nth_error_None in Hk. lia. }
    split; [exact Hlen|].
    destruct Hshape as [(_ & _ & Htr)|(e & Hn & _ & _)]; [exact Htr|lia].
Qed.

Lemma cleanup_retries_witness :
  (exists st' (errs : list exn),
      process_file (machine Unix) unix_self (in_dir "a.wav") (start busy_world)
      = (Ok tt, st')
      /\ batch_loop (machine Unix) unix_self [in_dir "a.wav"] 0 0 (start busy_world)
         = (Ok (1, 0), st')
      /\ List.length errs = 3
      /\ count_removes (trace st') = 4
      /\ existsb is_warning (trace st') = false)
  /\ (exists st' (errs : list exn),
         process_file (machine Unix) unix_self (in_dir "a.wav") (start stuck_world)
         = (Ok tt, st')
         /\ batch_loop (machine Unix) unix_self [in_dir "a.wav"] 0 0
              (start stuck_world)
            = (Ok (1, 0), st')
         /\ List.length errs = 5
         /\ count_removes (trace st') = 6
         /\ existsb is_warning (trace st') = true).
Proof.
  split.
  - destruct (cleanup_retries (machine Unix) unix_self (in_dir "a.wav")
                (start busy_world)
                (snd (run_tools (machine Unix) unix_self (in_dir "a.wav")
                        (start busy_world))) 0 0)
      as (st' & errs & Hp & Hb & _ & _ & _ & H3).
    + vm_compute. reflexivity.
    + vm_compute. reflexivity.
    + exists st', errs.
      split; [exact Hp|]. split; [exact Hb|].
      destruct H3 as [Hlen Htr].
      * intros k Hk. destruct k as [|[|[|k]]]; [| | |lia];
          vm_compute; discriminate.
      * vm_compute. reflexivity.
      * split; [exact Hlen|].
        destruct errs as [|e1 [|e2 [|e3 [|e4 errs]]]]; try discriminate Hlen.
        rewrite Htr. split; reflexivity.
  - destruct (cleanup_retries (machine Unix) unix_self (in_dir "a.wav")
                (start stuck_world)
                (snd (run_tools (machine Unix) unix_self (in_dir "a.wav")
                        (start stuck_world))) 0 0)
      as (st' & errs & Hp & Hb & _ & _ & Hall & _).
    + vm_compute. reflexivity.
    + vm_compute. reflexivity.
    + exists st', errs.
      split; [exact Hp|]. split; [exact Hb|].
      destruct Hall as (e & Hlen & Htr).
      * intros k Hk. destruct k as [|[|[|[|[|[|k]]]]]]; [| | | | | |lia];
          vm_compute; discriminate.
      * split; [exact Hlen|].
        destruct errs as [|e1 [|e2 [|e3 [|e4 [|e5 [|e6 errs]]]]]];
          try discriminate Hlen.
        rewrite Htr. split; reflexivity.
Defined.

(** C8.  When the temporary file is not there after the tools have run,
    the deletion step leaves the state as it is: no attempt, no pause, no
    warning, no error. *)
Theorem cleanup_missing_file {W} (os : OS W) self infile st0 st :
  run_tools os self infile st0 = (Ok tt, st) ->
  path_exists os (world st) (job_tmp_brr os self infile) = false ->
  delete_tmp_brr os (job_tmp_brr os self infile) st = (Ok tt, st)
  /\ process_file os self infile st0 = (Ok tt, st).
Proof.
  intros Hrun Hex.
  pose proof (delete_tmp_brr_missing os _ _ Hex) as Hdel.
  split; [exact Hdel|].
  now rewrite process_file_unfold, Hrun.
Qed.

Lemma cleanup_missing_file_witness :
  delete_tmp_brr (dry_machine Unix)
    (job_tmp_brr (dry_machine Unix) unix_self (in_dir "a.wav"))
    (snd (run_tools (dry_machine Unix) unix_self (in_dir "a.wav")
            (start unix_world)))
  = (Ok tt, snd (run_tools (dry_machine Unix) unix_self (in_dir "a.wav")
                   (start unix_world)))
  /\ process_file (dry_machine Unix) unix_self (in_dir "a.wav") (start unix_world)
     = (Ok tt, snd (run_tools (dry_machine Unix) unix_self (in_dir "a.wav")
                      (start unix_world))).
Proof.
  apply (cleanup_missing_file (dry_machine Unix) unix_self (in_dir "a.wav")
           (start unix_world)).
  - vm_compute. reflexivity.
  - vm_compute. reflexivity.
Defined.

End Cleanup.

(* ================================================================== *)
(** * The two tool runs *)
(* ================================================================== *)

Module Tools.
Import PyStr PyStrFacts Pathlib PathlibFacts Effects BatchConvert Spec.
Import ScriptFacts Machine Cleanup.

Section Runs.
Context {W : Type} (os : OS W).

(** Building the command lines reads the world and leaves it alone. *)
Lemma tool_argvs_pure self infile st r st1 :
  tool_argvs os self infile st = (r, st1) -> st1 = st /\ r <> Diverge.
Proof.
  unfold tool_argvs, to_cygwin, get_cygwin_bash. monad_unfold.
  destruct (sys_platform os).
  - destruct (cygwin_bash self); intros [= <- <-]; split; congruence.
  - intros [= <- <-]; split; congruence.
Qed.

Lemma run_tools_unfold self infile st enc dec :
  tool_argvs os self infile st = (Ok (enc, dec), st) ->
  run_tools os self infile st
  = match subprocess_run os enc true st with
    | (Ok _, st1) =>
        match subprocess_run os dec true st1 with
        | (Ok _, st2) => (Ok tt, st2)
        | (Raise e, st2) => (Raise e, st2)
        | (Diverge, st2) => (Diverge, st2)
        end
    | (Raise e, st1) => (Raise e, st1)
    | (Diverge, st1) => (Diverge, st1)
    end.
Proof.
  intros H. unfold run_tools. unfold bind at 1. rewrite H.
  cbn [fst snd]. unfold bind at 1.
  destruct (subprocess_run os enc true st) as [[cp| |] st1]; reflexivity.
Qed.

Lemma subprocess_run_spec argv check st :
  subprocess_run os argv check st
  = let '(r, w1) := subprocess_exec os (world st) argv in
    let st1 := {| world := w1; trace := (trace st ++ [EvExec argv r])%list |} in
    match r with
    | inl e => (Raise e, st1)
    | inr cp =>
        if check && negb (returncode cp =? 0)%Z
        then (Raise (CalledProcessError (returncode cp) argv
                       (stdout cp) (stderr cp)), st1)
        else (Ok cp, st1)
    end.
Proof.
  monad_unfold.
  destruct (subprocess_exec os (world st) argv) as [[e|cp] w1]; [reflexivity|].
  now destruct (check && negb (returncode cp =? 0)%Z).
Qed.

Lemma subprocess_run_total argv check st :
  fst (subprocess_run os argv check st) <> Diverge.
Proof.
  rewrite subprocess_run_spec.
  destruct (subprocess_exec os (world st) argv) as [[e|cp] w1]; cbn;
    [congruence|].
  destruct (check && negb (returncode cp =? 0)%Z); cbn; congruence.
Qed.

(** Neither the tool runs nor a whole conversion can fail to return. *)
Lemma run_tools_total self infile st :
  fst (run_tools os self infile st) <> Diverge.
Proof.
  destruct (tool_argvs os self infile st) as [r st1] eqn:E.
  destruct (tool_argvs_pure _ _ _ _ _ E) as [-> Hr].
  destruct r as [[enc dec]|e|]; [| |congruence].
  - rewrite (run_tools_unfold _ _ _ _ _ E).
    pose proof (subprocess_run_total enc true st) as H1.
    destruct (subprocess_run os enc true st) as [[cp| |] s1]; cbn in *;
      [|congruence|congruence].
    pose proof (subprocess_run_total dec true s1) as H2.
    destruct (subprocess_run os dec true s1) as [[cp2| |] s2]; cbn in *;
      congruence.
  - unfold run_tools. unfold bind at 1. rewrite E. cbn. congruence.
Qed.

Lemma process_file_total self infile st :
  fst (process_file os self infile st) <> Diverge.
Proof.
  rewrite process_file_unfold.
  pose proof (run_tools_total self infile st) as H.
  destruct (run_tools os self infile st) as [[[]| |] st1]; cbn [fst] in *;
    [|congruence|congruence].
  destruct (delete_tmp_brr_total os (job_tmp_brr os self infile) st1)
    as [st' ->]. cbn [fst]. congruence.
Qed.

End Runs.

(** C4.  With the command lines [enc] and [dec] of a job: an encoder that
    exits with a non-zero status makes [process_file] raise the tool error
    at once, the encoder run being its only effect, so the decoder is not
    started; a decoder that exits with a non-zero status, after an encoder
    that exited with 0, makes it raise at once too, before any clean-up. *)
Theorem tool_failure_raises {W} (os : OS W) self infile st enc dec :
  tool_argvs os self infile st = (Ok (enc, dec), st) ->
  (forall cp w1,
      subprocess_exec os (world st) enc = (inr cp, w1) ->
      returncode cp <> 0%Z ->
      process_file os self infile st
      = (Raise (CalledProcessError (returncode cp) enc (stdout cp) (stderr cp)),
         {| world := w1; trace := (trace st ++ [EvExec enc (inr cp)])%list |}))
  /\ (forall cp1 w1 cp2 w2,
         subprocess_exec os (world st) enc = (inr cp1, w1) ->
         returncode cp1 = 0%Z ->
         subprocess_exec os w1 dec = (inr cp2, w2) ->
         returncode cp2 <> 0%Z ->
         process_file os self infile st
         = (Raise (CalledProcessError (returncode cp2) dec
                     (stdout cp2) (stderr cp2)),
            {| world := w2;
               trace := (trace st ++ [EvExec enc (inr cp1);
                                      EvExec dec (inr cp2)])%list |})).
Proof.
  intros Hargs. split.
  - intros cp w1 Hexec Hrc.
    rewrite process_file_unfold, (run_tools_unfold os _ _ _ _ _ Hargs).
    rewrite subprocess_run_spec, Hexec.
    apply Z.eqb_neq in Hrc. now rewrite Hrc.
  - intros cp1 w1 cp2 w2 Hexec1 Hrc1 Hexec2 Hrc2.
    rewrite process_file_unfold, (run_tools_unfold os _ _ _ _ _ Hargs).
    rewrite subprocess_run_spec, Hexec1, Hrc1. cbn [andb negb Z.eqb].
    rewrite subprocess_run_spec. cbn [world trace]. rewrite Hexec2.
    apply Z.eqb_neq in Hrc2. rewrite Hrc2. cbn [andb negb].
    now rewrite <- app_assoc.
Qed.

Lemma tool_failure_raises_witness :
  process_file (machine Unix) unix_self (in_dir "bad.wav") (start unix_world)
  = (Raise (CalledProcessError 2
              ["/opt/brr/bin/brr_encoder"; "-sb16000"; "in/bad.wav"; "out/bad.brr"]
              "" "bad input"),
     {| world := unix_world;
        trace := [EvExec ["/opt/brr/bin/brr_encoder"; "-sb16000";
                          "in/bad.wav"; "out/bad.brr"]
                    (inr bad_process)] |})
  /\ process_file (machine Unix) unix_self (in_dir "corrupt.wav")
       (start unix_world)
     = (Raise (CalledProcessError 2
                 ["/opt/brr/bin/brr_decoder"; "-s16000"; "-g";
                  "out/corrupt.brr"; "out/corrupt.wav"]
                 "" "bad input"),
        {| world := add_file "out/corrupt.brr" unix_world;
           trace := [EvExec ["/opt/brr/bin/brr_encoder"; "-sb16000";
                             "in/corrupt.wav"; "out/corrupt.brr"]
                       (inr ok_process);
                     EvExec ["/opt/brr/bin/brr_decoder"; "-s16000"; "-g";
                             "out/corrupt.brr"; "out/corrupt.wav"]
                       (inr bad_process)] |}).
Proof.
  split.
  - apply (proj1 (tool_failure_raises (machine Unix) unix_self
                    (in_dir "bad.wav") (start unix_world)
                    ["/opt/brr/bin/brr_encoder"; "-sb16000";
                     "in/bad.wav"; "out/bad.brr"]
                    ["/opt/brr/bin/brr_decoder"; "-s16000"; "-g";
                     "out/bad.brr"; "out/bad.wav"]
                    eq_refl) bad_process unix_world).
    + vm_compute. reflexivity.
    + vm_compute. discriminate.
  - apply (proj2 (tool_failure_raises (machine Unix) unix_self
                    (in_dir "corrupt.wav") (start unix_world)
                    ["/opt/brr/bin/brr_encoder"; "-sb16000";
                     "in/corrupt.wav"; "out/corrupt.brr"]
                    ["/opt/brr/bin/brr_decoder"; "-s16000"; "-g";
                     "out/corrupt.brr"; "out/corrupt.wav"]
                    eq_refl) ok_process (add_file "out/corrupt.brr" unix_world)
             bad_process (add_file "out/corrupt.brr" unix_world)).
    + vm_compute. reflexivity.
    + reflexivity.
    + vm_compute. reflexivity.
    + vm_compute. discriminate.
Defined.

End Tools.

(* ================================================================== *)
(** * The batch loop and the entry point *)
(* ================================================================== *)

Module Batch.
Import PyStr PyStrFacts Pathlib PathlibFacts Effects BatchConvert Spec.
Import ScriptFacts Machine Cleanup Tools.

Section Loop.
Context {W : Type} (os : OS W).

(** A failed item is reported and counted, and the loop goes on. *)
Lemma batch_loop_raise self infile todo sc ec st e st' :
  process_file os self infile st = (Raise e, st') ->
  exists st'',
    batch_loop os self (infile :: todo) sc ec st
    = batch_loop os self todo sc (ec + 1) st''
    /\ world st'' = world st'.
Proof.
  intros H. cbn [batch_loop]. unfold bind at 1, try_except, bind at 1.
  rewrite H.
  destruct e; unfold report_tool_error, report_unexpected; monad_unfold;
    try (eexists; split; reflexivity).
  destruct (truthy out), (truthy err); eexists; split; reflexivity.
Qed.

Lemma batch_loop_total self todo :
  forall sc ec st,
  exists sc' ec' st',
    batch_loop os self todo sc ec st = (Ok (sc', ec'), st')
    /\ sc' + ec' = sc + ec + List.length todo.
Proof.
  induction todo as [|infile todo IH]; intros sc ec st.
  - exists sc, ec, st. split; [reflexivity|cbn; lia].
  - pose proof (process_file_total os self infile st) as Ht.
    destruct (process_file os self infile st) as [[[]|e|] st1] eqn:E;
      cbn [fst] in Ht; [| |congruence].
    + rewrite (batch_loop_ok os _ _ _ _ _ _ _ E).
      destruct (IH (sc + 1) ec st1) as (sc' & ec' & st' & -> & Hs).
      exists sc', ec', st'. split; [reflexivity|cbn; lia].
    + destruct (batch_loop_raise self infile todo sc ec _ _ _ E)
        as (st2 & -> & _).
      destruct (IH sc (ec + 1) st2) as (sc' & ec' & st' & -> & Hs).
      exists sc', ec', st'. split; [reflexivity|cbn; lia].
Qed.

Lemma print_lines_spec lines (st : State W) :
  print_lines lines st
  = (Ok tt, {| world := world st;
               trace := (trace st ++ map EvStdout lines)%list |}).
Proof.
  revert st. induction lines as [|l ls IH]; intros st.
  - cbn. rewrite app_nil_r. now destruct st.
  - cbn [print_lines]. monad_unfold. rewrite IH. cbn.
    now rewrite <- app_assoc.
Qed.

Lemma process_batch_unfold self st sc ec st1 :
  batch_loop os self (infiles self) 0 0 st = (Ok (sc, ec), st1) ->
  process_batch os self st
  = (Ok tt, {| world := world st1;
               trace := (trace st1
                         ++ map EvStdout (summary self sc ec))%list |}).
Proof.
  intros H. unfold process_batch. unfold bind at 1. rewrite H.
  cbn [fst snd]. apply print_lines_spec.
Qed.


Lemma filter_length_split {A} (f : A -> bool) l :
  List.length (filter f l) <= List.length l
  /\ List.length (filter (fun x => negb (f x)) l)
     = List.length l - List.length (filter f l).
Proof.
  induction l as [|x l [IH1 IH2]]; [split; reflexivity|].
  cbn [filter]. destruct (f x); cbn [negb List.length]; split; lia.
Qed.

Lemma batch_loop_counts self (fails : PurePath -> bool) todo :
  (forall infile s,
      In infile todo ->
      (fails infile = true ->
       exists code cmd out err s',
         run_tools os self infile s
         = (Raise (CalledProcessError code cmd out err), s'))
      /\ (fails infile = false ->
          exists s', run_tools os self infile s = (Ok tt, s'))) ->
  forall sc ec st,
  exists st',
    batch_loop os self todo sc ec st
    = (Ok (sc + List.length (filter (fun x => negb (fails x)) todo),
           ec + List.length (filter fails todo)), st').
Proof.
  induction todo as [|infile todo IH]; intros Hiso sc ec st.
  - exists st. cbn. now rewrite !Nat.add_0_r.
  - assert (Hrest : forall infile0 s, In infile0 todo ->
              (fails infile0 = true ->
               exists code cmd out err s',
                 run_tools os self infile0 s
                 = (Raise (CalledProcessError code cmd out err), s'))
              /\ (fails infile0 = false ->
                  exists s', run_tools os self infile0 s = (Ok tt, s')))
      by (intros; apply Hiso; now right).
    destruct (Hiso infile st (or_introl eq_refl)) as [Hbad Hgood].
    cbn [filter]. destruct (fails infile) eqn:Ef; cbn [negb List.length].
    + destruct (Hbad eq_refl) as (code & cmd & out & err & s' & Hrun).
      assert (Hpf : process_file os self infile st
                    = (Raise (CalledProcessError code cmd out err), s'))
        by (now rewrite process_file_unfold, Hrun).
      destruct (batch_loop_raise self infile todo sc ec _ _ _ Hpf)
        as (st2 & -> & _).
      destruct (IH Hrest sc (ec + 1) st2) as (st' & ->).
      exists st'. f_equal. f_equal. f_equal; lia.
    + destruct (Hgood eq_refl) as (s' & Hrun).
      destruct (delete_tmp_brr_total os (job_tmp_brr os self infile) s')
        as (s'' & Hdel).
      assert (Hpf : process_file os self infile st = (Ok tt, s''))
        by (now rewrite process_file_unfold, Hrun).
      rewrite (batch_loop_ok os _ _ _ _ _ _ _ Hpf).
      destruct (IH Hrest (sc + 1) ec s'') as (st' & ->).
      exists st'. f_equal. f_equal. f_equal; lia.
Qed.

End Loop.

(** C1.  Let the tool runs of an item fail with the tool error, whatever
    the state, exactly for the items that [fails] marks, and succeed for
    the others.  Then the loop over the N discovered files returns
    normally with N - K successes and K failures, K being the number of
    marked files, and [process_batch] prints these counts. *)
Theorem batch_isolates_failures {W} (os : OS W) self
    (fails : PurePath -> bool) st :
  (forall infile s,
      In infile (infiles self) ->
      (fails infile = true ->
       exists code cmd out err s',
         run_tools os self infile s
         = (Raise (CalledProcessError code cmd out err), s'))
      /\ (fails infile = false ->
          exists s', run_tools os self infile s = (Ok tt, s'))) ->
  exists st1 st',
    batch_loop os self (infiles self) 0 0 st
    = (Ok (List.length (infiles self)
           - List.length (filter fails (infiles self)),
           List.length (filter fails (infiles self))), st1)
    /\ List.length (filter fails (infiles self)) <= List.length (infiles self)
    /\ process_batch os self st = (Ok tt, st')
    /\ world st' = world st1
    /\ trace st'
       = (trace st1
          ++ map EvStdout
               (summary self
                  (List.length (infiles self)
                   - List.length (filter fails (infiles self)))
                  (List.length (filter fails (infiles self)))))%list.
Proof.
  intros Hiso.
  destruct (batch_loop_counts os self fails (infiles self) Hiso 0 0 st)
    as (st1 & Hloop).
  destruct (filter_length_split fails (infiles self)) as [Hle Hlen].
  rewrite Hlen in Hloop. cbn [Nat.add] in Hloop.
  eexists st1, _.
  split; [exact Hloop|]. split; [exact Hle|].
  split; [apply (process_batch_unfold os _ _ _ _ _ Hloop)|].
  split; reflexivity.
Qed.

Lemma batch_isolates_failures_witness :
  exists st1 st',
    batch_loop (machine Unix) unix_self (infiles unix_self) 0 0
      (start unix_world)
    = (Ok (2, 1), st1)
    /\ process_batch (machine Unix) unix_self (start unix_world) = (Ok tt, st')
    /\ trace st'
       = (trace st1 ++ map EvStdout (summary unix_self 2 1))%list.
Proof.
  destruct (batch_isolates_failures (machine Unix) unix_self mentions_bad
              (start unix_world)) as (st1 & st' & Hl & _ & Hp & _ & Ht).
  - intros infile s Hin.
    destruct Hin as [<-|[<-|[<-|[]]]]; split; intros Hf;
      try (vm_compute in Hf; discriminate Hf).
    + exists (snd (run_tools (machine Unix) unix_self (in_dir "a.wav") s)).
      reflexivity.
    + exists 2%Z, ["/opt/brr/bin/brr_encoder"; "-sb16000"; "in/bad.wav";
                   "out/bad.brr"], "", "bad input",
        (snd (run_tools (machine Unix) unix_self (in_dir "bad.wav") s)).
      reflexivity.
    + exists (snd (run_tools (machine Unix) unix_self (in_dir "c.WAV") s)).
      reflexivity.
  - exists st1, st'. split; [exact Hl|]. split; [exact Hp|exact Ht].
Defined.

(** ** Start-up *)

Section Startup.
Context {W : Type} (os : OS W).

















End Startup.



End Batch.

(* ================================================================== *)
(** * Looking for Cygwin bash *)
(* ================================================================== *)

Module Shell.
Import PyStr PyStrFacts Pathlib PathlibFacts Effects BatchConvert Spec.
Import ScriptFacts Machine.

Section Search.
Context {W : Type} (os : OS W).






End Search.



End Shell.

(* ================================================================== *)
(** * Discovery of the input files *)
(* ================================================================== *)

Module Discovery.
Import PyStr PyStrFacts Pathlib PathlibFacts Effects BatchConvert Spec.
Import ScriptFacts Machine.

Lemma length_lower s : String.length (lower s) = String.length s.
Proof. induction s; simpl; congruence. Qed.

Lemma truthy_take n a s : truthy (take (S n) (String a s)) = true.
Proof. reflexivity. Qed.

(** A name with the wanted extension is a non-empty stem followed by four
    characters. *)
Lemma wav_name_split p :
  (lower (suffix p) =? ".wav")%string = true ->
  name p = stem p ++ suffix p
  /\ truthy (stem p) = true
  /\ String.length (suffix p) = 4.
Proof.
  intros H.
  assert (Hlen : String.length (suffix p) = 4).
  { apply String.eqb_eq in H. apply (f_equal String.length) in H.
    now rewrite length_lower in H. }
  split; [|split; [|exact Hlen]].
  - unfold suffix, stem in *.
    destruct (_ && _); [now rewrite take_drop|discriminate Hlen].
  - unfold suffix, stem in *.
    destruct ((0 <? rfind dot (name p))%Z
              && (rfind dot (name p) <? Z.of_nat (len (name p)) - 1)%Z) eqn:E;
      [|discriminate Hlen].
    apply andb_true_iff in E as [E1 E2].
    apply Z.ltb_lt in E1. apply Z.ltb_lt in E2.
    destruct (Z.to_nat (rfind dot (name p))) as [|n] eqn:En; [lia|].
    destruct (name p) as [|a s]; [cbn in E2; lia|reflexivity].
Qed.

(** Two texts that end in tails of one length have the same tail. *)
Lemma append_inj_tail a b c d :
  a ++ c = b ++ d -> String.length c = String.length d -> c = d.
Proof.
  revert b. induction a as [|x a IH]; intros [|y b] H Hl; simpl in H.
  - exact H.
  - apply (f_equal String.length) in H. simpl in H.
    rewrite length_append in H. lia.
  - apply (f_equal String.length) in H. simpl in H.
    rewrite length_append in H. lia.
  - injection H as _ H. now apply (IH b).
Qed.

Lemma make_child_last p p' a b :
  make_child_relpath p a = make_child_relpath p' b -> a = b.
Proof.
  unfold make_child_relpath. intros [= _ _ H].
  now apply app_inj_tail in H.
Qed.

Section Get.
Context {W : Type} (os : OS W).

(** X1.  A successful [get_infiles] changes nothing in the world and
    prints the one line that counts the files.  The list is not empty; each
    of its files is an entry of the input directory that is a regular file,
    and its name is a non-empty stem followed by a four-character extension
    that reads [.wav] in lower case: a file named [.wav] alone is never
    taken. *)
Theorem discovery_sound indir st files st1 :
  get_infiles os indir st = (Ok files, st1) ->
  files <> []
  /\ world st1 = world st
  /\ trace st1
     = (trace st ++ [EvStdout ("Found " ++ of_nat (List.length files)
                               ++ " WAV files to process")])%list
  /\ forall f, In f files ->
       path_is_file os (world st) f = true
       /\ f = make_child_relpath (Path (fl os) indir) (name f)
       /\ name f = stem f ++ suffix f
       /\ truthy (stem f) = true
       /\ lower (suffix f) = ".wav".
Proof.
  unfold get_infiles. monad_unfold.
  destruct (path_is_dir os (world st) _); cbn [negb]; [|discriminate].
  destruct (os_listdir os (world st) _) as [e|entries]; [discriminate|].
  destruct (filter _ _) as [|f0 fs] eqn:E; [discriminate|].
  intros H. injection H as <- <-. cbn [world trace].
  split; [discriminate|]. split; [reflexivity|]. split; [reflexivity|].
  intros f Hf. rewrite <- E in Hf.
  apply filter_In in Hf as [Hin Hw].
  apply in_map_iff in Hin as (e & <- & _).
  unfold is_wav in Hw. apply andb_true_iff in Hw as [Hfile Hsfx].
  split; [exact Hfile|].
  rewrite (name_child (fl os)) by apply parse_parts_wf.
  split; [reflexivity|].
  destruct (wav_name_split _ Hsfx) as (Hn & Hs & _).
  rewrite (name_child (fl os)) in Hn by apply parse_parts_wf.
  split; [exact Hn|]. split; [exact Hs|].
  now apply String.eqb_eq.
Qed.


(** X3.  After a successful start-up over a listing of valid names, the
    temporary path of a job is neither the output path of any job nor any
    of the input files: the deletion step cannot remove a converted file or
    a source. *)
Theorem temp_path_is_private brr indir outdir r st self st' f1 f2 :
  BatchProcessor_init os brr indir outdir r st = (Ok self, st') ->
  listing_valid_at os (world st) (Path (fl os) indir) = true ->
  In f1 (infiles self) -> In f2 (infiles self) ->
  job_tmp_brr os self f1 <> job_out_wav os self f2
  /\ job_tmp_brr os self f1 <> f2.
Proof.
  intros Hi Hv H1 H2.
  destruct (init_discovered os _ _ _ _ _ _ _ _ Hi Hv H1) as (_ & e1 & _ & Hn1 & Hv1).
  destruct (init_discovered os _ _ _ _ _ _ _ _ Hi Hv H2) as (_ & e2 & He2 & Hn2 & Hv2).
  rewrite <- Hn1 in Hv1. rewrite <- Hn2 in Hv2.
  rewrite (job_tmp_brr_child os self f1 Hv1), (job_out_wav_child os self f2 Hv2).
  assert (Hsfx : (lower (suffix f2) =? ".wav")%string = true).
  { apply init_inv in Hi as (_ & _ & entries & _ & Hfs).
    rewrite Hfs in H2. now apply discovered_inv in H2 as (e & _ & _ & Hs). }
  destruct (wav_name_split _ Hsfx) as (Hname & _ & Hlen).
  assert (Hne : stem f1 ++ ".brr" <> name f2).
  { rewrite Hname. intros E.
    apply append_inj_tail in E; [|now rewrite Hlen].
    rewrite <- E in Hsfx. discriminate Hsfx. }
  split.
  - intros E. now apply make_child_last in E.
  - rewrite He2, <- Hn2. intros E. now apply make_child_last in E.
Qed.

End Get.

Lemma discovery_sound_witness :
  exists files st1,
    get_infiles (machine Unix) "in" (start unix_world) = (Ok files, st1)
    /\ files = [in_dir "a.wav"; in_dir "bad.wav"; in_dir "c.WAV"]
    /\ world st1 = unix_world
    /\ forall f, In f files ->
         name f = stem f ++ suffix f /\ lower (suffix f) = ".wav".
Proof.
  exists [in_dir "a.wav"; in_dir "bad.wav"; in_dir "c.WAV"],
    (snd (get_infiles (machine Unix) "in" (start unix_world))).
  destruct (discovery_sound (machine Unix) "in" (start unix_world)
              [in_dir "a.wav"; in_dir "bad.wav"; in_dir "c.WAV"]
              (snd (get_infiles (machine Unix) "in" (start unix_world))) eq_refl)
    as (_ & Hw & _ & Hf).
  split; [reflexivity|]. split; [reflexivity|]. split; [exact Hw|].
  intros f Hin. destruct (Hf f Hin) as (_ & _ & Hn & _ & Hs). now split.
Defined.


Lemma temp_path_is_private_witness :
  job_tmp_brr (machine Unix) inplace_self (in_dir "a.wav")
  <> job_out_wav (machine Unix) inplace_self (in_dir "c.WAV")
  /\ job_tmp_brr (machine Unix) inplace_self (in_dir "a.wav") <> in_dir "c.WAV".
Proof.
  eapply (temp_path_is_private (machine Unix) "/opt/brr" "in" "in/" 16000
            (start unix_world) inplace_self).
  - vm_compute. reflexivity.
  - vm_compute. reflexivity.
  - simpl. auto.
  - simpl. auto.
Defined.

End Discovery.

(* ================================================================== *)
(** * The output and tool directories, and the order of start-up *)
(* ================================================================== *)

Module Directories.
Import PyStr PyStrFacts Pathlib PathlibFacts Effects BatchConvert Spec.
Import ScriptFacts Machine.

Section Checks.
Context {W : Type} (os : OS W).

(** X4.  [get_outpath] creates the directory only when nothing exists at
    the path, and then once; a path that exists is left alone, accepted
    when it is a directory and refused with [ValueError] otherwise; a
    refusal of [os.makedirs] is passed on.  On success the path is a
    directory in the world that results. *)
Theorem get_outpath_cases outdir st :
  (path_exists os (world st) (Path (fl os) outdir) = true ->
   get_outpath os outdir st
   = (if path_is_dir os (world st) (Path (fl os) outdir)
      then Ok (Path (fl os) outdir)
      else Raise (ValueError ("Output path exists but is not a directory: "
                              ++ str (fl os) (Path (fl os) outdir))),
      st))
  /\ (path_exists os (world st) (Path (fl os) outdir) = false ->
      forall e w1,
        os_makedirs os (world st) (Path (fl os) outdir) = (Some e, w1) ->
        get_outpath os outdir st
        = (Raise e,
           {| world := w1;
              trace := (trace st
                        ++ [EvMakedirs (Path (fl os) outdir) (Some e)])%list |}))
  /\ (path_exists os (world st) (Path (fl os) outdir) = false ->
      forall w1,
        os_makedirs os (world st) (Path (fl os) outdir) = (None, w1) ->
        path_is_dir os w1 (Path (fl os) outdir) = true ->
        get_outpath os outdir st
        = (Ok (Path (fl os) outdir),
           {| world := w1;
              trace := (trace st
                        ++ [EvMakedirs (Path (fl os) outdir) None;
                            EvStdout ("Created output directory: "
                                      ++ str (fl os) (Path (fl os) outdir))])%list |}))
  /\ (forall out st1,
        get_outpath os outdir st = (Ok out, st1) ->
        out = Path (fl os) outdir
        /\ path_is_dir os (world st1) out = true).
Proof.
  unfold get_outpath. monad_unfold.
  split; [|split; [|split]].
  - intros ->. cbn [negb].
    now destruct (path_is_dir os (world st) _); destruct st.
  - intros -> e w1 He. cbn [negb]. now rewrite He.
  - intros -> w1 He Hd. cbn [negb]. rewrite He. cbn [negb world trace].
    rewrite Hd. cbn [negb]. now rewrite <- app_assoc.
  - intros out st1.
    destruct (path_exists os (world st) _); cbn [negb].
    + destruct (path_is_dir os (world st) _) eqn:Hd; cbn [negb]; [|discriminate].
      intros [= <- <-]. now split.
    + destruct (os_makedirs os (world st) _) as [[e|] w1]; [discriminate|].
      cbn [world trace].
      destruct (path_is_dir os w1 _) eqn:Hd; cbn [negb]; [|discriminate].
      intros [= <- <-]. now split.
Qed.


(** X6.  The input directory is checked first: when [get_infiles] fails,
    [__init__] fails with the same error and the state is untouched, so no
    output directory has been created and nothing has been printed. *)
Theorem init_checks_input_first brr indir outdir r st e st1 :
  get_infiles os indir st = (Raise e, st1) ->
  BatchProcessor_init os brr indir outdir r st = (Raise e, st)
  /\ main os {| arg_brrtools := brr; arg_indir := indir;
                arg_outdir := outdir; arg_rate := r |} st
     = (Ok 1%Z,
        {| world := world st;
           trace := (trace st
                     ++ [EvStderr (nl ++ "FATAL ERROR: " ++ exn_str e);
                         EvTraceback e])%list |}).
Proof.
  intros H.
  assert (Hst : st1 = st).
  { revert H. unfold get_infiles. monad_unfold.
    destruct (path_is_dir os (world st) _); cbn [negb];
      [|now intros [= _ <-]].
    destruct (os_listdir os (world st) _) as [e'|entries];
      [now intros [= _ <-]|].
    destruct (filter _ _); [now intros [= _ <-]|discriminate]. }
  subst st1.
  assert (Hi : BatchProcessor_init os brr indir outdir r st = (Raise e, st)).
  { unfold BatchProcessor_init. unfold bind at 1. now rewrite H. }
  split; [exact Hi|].
  unfold main, try_except. unfold bind at 1. cbn [arg_brrtools arg_indir
    arg_outdir arg_rate]. rewrite Hi. monad_unfold. cbn.
  now rewrite <- app_assoc.
Qed.

End Checks.

Lemma get_outpath_cases_witness :
  get_outpath (machine Unix) "out" (start clash_world)
  = (Raise (ValueError "Output path exists but is not a directory: out"),
     start clash_world)
  /\ fst (get_outpath (machine Unix) "out" (start unix_world))
     = Ok (Path posix_flavour "out")
  /\ path_is_dir (machine Unix)
       (world (snd (get_outpath (machine Unix) "out" (start unix_world))))
       (Path posix_flavour "out") = true.
Proof.
  destruct (get_outpath_cases (machine Unix) "out" (start clash_world))
    as (H1 & _).
  destruct (get_outpath_cases (machine Unix) "out" (start unix_world))
    as (_ & _ & _ & H4).
  split; [apply H1; reflexivity|].
  destruct (H4 (Path posix_flavour "out")
              (snd (get_outpath (machine Unix) "out" (start unix_world)))
              eq_refl) as [_ Hd].
  split; [reflexivity|exact Hd].
Defined.


Lemma init_checks_input_first_witness :
  BatchProcessor_init (machine Unix) "/opt/brr" "in" "out" 16000
    (start empty_world)
  = (Raise (ValueError "Input directory does not exist: in"), start empty_world)
  /\ main (machine Unix) unix_args (start empty_world)
     = (Ok 1%Z,
        {| world := empty_world;
           trace := [EvStderr (nl ++ "FATAL ERROR: "
                               ++ "Input directory does not exist: in");
                     EvTraceback
                       (ValueError "Input directory does not exist: in")] |}).
Proof.
  apply (init_checks_input_first (machine Unix) "/opt/brr" "in" "out" 16000
           (start empty_world)
           (ValueError "Input directory does not exist: in")
           (start empty_world) eq_refl).
Defined.

End Directories.

(* ================================================================== *)
(** * The search for bash, stage by stage *)
(* ================================================================== *)

Module ShellSearch.
Import PyStr PyStrFacts Pathlib PathlibFacts Effects BatchConvert Spec.
Import ScriptFacts Machine.

Section Stages.
Context {W : Type} (os : OS W).


Lemma first_cygwin_location_reads locations st :
  exists found, first_cygwin_location os locations st = (Ok found, st).
Proof.
  induction locations as [|l ls IH]; cbn [first_cygwin_location];
    [now eexists|].
  destruct (contains "system32" _); [exact IH|].
  destruct (contains "cygwin" _); [|exact IH].
  monad_unfold. destruct (path_exists os (world st) _); [now eexists|exact IH].
Qed.




(** X9.  A [bash.exe] under the [bin] of a non-empty [CYGWIN_ROOT] wins
    over every other candidate and is returned without starting any
    process; an empty [CYGWIN_ROOT] counts as none. *)
Theorem cygwin_root_priority st root :
  os_environ_get os (world st) "CYGWIN_ROOT" = Some root ->
  (truthy root = true ->
   path_exists os (world st)
     (truediv (fl os) (truediv (fl os) (Path (fl os) root) "bin") "bash.exe")
   = true ->
   _find_cygwin_bash os st
   = (Ok (str (fl os)
            (truediv (fl os) (truediv (fl os) (Path (fl os) root) "bin")
               "bash.exe")),
      st))
  /\ (root = "" ->
      _find_cygwin_bash os st = fallback_search os st).
Proof.
  intros Henv. split.
  - intros Ht He. unfold _find_cygwin_bash, possible_paths. monad_unfold.
    rewrite Henv, Ht. cbn [first_existing]. monad_unfold. now rewrite He.
  - intros ->. unfold _find_cygwin_bash, possible_paths, fallback_search,
      default_bash_paths.
    monad_unfold. rewrite Henv. cbn [truthy String.eqb negb first_existing].
    monad_unfold.
    destruct (path_exists os (world st)
                (Path (fl os) "C:/cygwin64/bin/bash.exe")); try reflexivity.
    destruct (path_exists os (world st)
                (Path (fl os) "C:/cygwin/bin/bash.exe")); try reflexivity.
    destruct (where_bash os st) as [[[l|]|e|] s']; reflexivity.
Qed.

End Stages.



Lemma cygwin_root_priority_witness :
  _find_cygwin_bash (machine Win32) (start rooted_world)
  = (Ok (win "E:/cyg/bin/bash.exe"), start rooted_world).
Proof.
  destruct (cygwin_root_priority (machine Win32) (start rooted_world) "E:/cyg"
              eq_refl) as [H _].
  rewrite H; reflexivity.
Defined.

End ShellSearch.

(* ================================================================== *)
(** * One conversion, the whole batch, the whole program *)
(* ================================================================== *)

Module Conversion.
Import PyStr PyStrFacts Pathlib PathlibFacts Effects BatchConvert Spec.
Import ScriptFacts Machine Cleanup Tools.

Lemma cleanup_failed_attempts tmp errs :
  forallb cleanup_event (failed_attempts tmp errs) = true.
Proof. induction errs as [|e errs IH]; [reflexivity|exact IH]. Qed.

Section Runs.
Context {W : Type} (os : OS W).

(** The events of the deletion step are attempts, pauses and at most the
    warning. *)
Lemma delete_tmp_brr_events tmp st :
  exists st' evs,
    delete_tmp_brr os tmp st = (Ok tt, st')
    /\ trace st' = (trace st ++ evs)%list
    /\ forallb cleanup_event evs = true.
Proof.
  destruct (path_exists os (world st) tmp) eqn:He.
  - destruct (delete_tmp_brr_existing os tmp st He)
      as (st' & errs & Hd & _ & [(_ & _ & Ht)|(e & _ & _ & Ht)]).
    + exists st'. eexists. split; [exact Hd|]. split; [exact Ht|].
      now rewrite forallb_app, cleanup_failed_attempts.
    + exists st'. eexists. split; [exact Hd|]. split; [exact Ht|].
      now rewrite forallb_app, cleanup_failed_attempts.
  - exists st, []. split; [now apply delete_tmp_brr_missing|].
    now rewrite app_nil_r.
Qed.

(** X10.  Whatever the tools and the file system do, the loop over the
    discovered files returns normally, its two counters add up to the
    number of files, and [process_batch] ends by printing the summary with
    these counters. *)
Theorem batch_counts_add_up self st :
  exists sc ec st1,
    batch_loop os self (infiles self) 0 0 st = (Ok (sc, ec), st1)
    /\ sc + ec = List.length (infiles self)
    /\ process_batch os self st
       = (Ok tt, {| world := world st1;
                    trace := (trace st1
                              ++ map EvStdout (summary self sc ec))%list |}).
Proof.
  destruct (Batch.batch_loop_total os self (infiles self) 0 0 st)
    as (sc & ec & st1 & Hl & Hs).
  exists sc, ec, st1. split; [exact Hl|]. split; [exact Hs|].
  now apply Batch.process_batch_unfold.
Qed.


(** X12.  A conversion that returns normally has run exactly two
    programs, the encoder and then the decoder, each of which exited with
    status 0; whatever follows is the deletion step. *)
Theorem success_means_both_tools_exited_zero self infile st st' :
  process_file os self infile st = (Ok tt, st') ->
  exists enc dec cp1 w1 cp2 w2 evs,
    tool_argvs os self infile st = (Ok (enc, dec), st)
    /\ subprocess_exec os (world st) enc = (inr cp1, w1)
    /\ returncode cp1 = 0%Z
    /\ subprocess_exec os w1 dec = (inr cp2, w2)
    /\ returncode cp2 = 0%Z
    /\ trace st'
       = (trace st ++ EvExec enc (inr cp1) :: EvExec dec (inr cp2) :: evs)%list
    /\ forallb cleanup_event evs = true.
Proof.
  rewrite process_file_unfold.
  destruct (tool_argvs os self infile st) as [r s0] eqn:Ea.
  destruct (tool_argvs_pure os _ _ _ _ _ Ea) as [-> _].
  destruct r as [[enc dec]|e|].
  - rewrite (run_tools_unfold os _ _ _ _ _ Ea).
    rewrite subprocess_run_spec.
    destruct (subprocess_exec os (world st) enc) as [[e1|cp1] w1] eqn:E1;
      [discriminate|].
    destruct (returncode cp1 =? 0)%Z eqn:R1; cbn [andb negb]; [|discriminate].
    rewrite subprocess_run_spec. cbn [world trace].
    destruct (subprocess_exec os w1 dec) as [[e2|cp2] w2] eqn:E2;
      [discriminate|].
    destruct (returncode cp2 =? 0)%Z eqn:R2; cbn [andb negb]; [|discriminate].
    intros Hdel.
    destruct (delete_tmp_brr_events (job_tmp_brr os self infile)
                {| world := w2;
                   trace := ((trace st ++ [EvExec enc (inr cp1)])
                             ++ [EvExec dec (inr cp2)])%list |})
      as (s' & evs & Hd & Ht & Hc).
    rewrite Hd in Hdel. injection Hdel as <-.
    exists enc, dec, cp1, w1, cp2, w2, evs.
    apply Z.eqb_eq in R1, R2.
    repeat (split; [reflexivity || assumption|]).
    split; [|exact Hc].
    rewrite Ht. cbn [trace]. now rewrite <- !app_assoc.
  - unfold run_tools. unfold bind at 1. rewrite Ea. discriminate.
  - unfold run_tools. unfold bind at 1. rewrite Ea. discriminate.
Qed.

(** X13.  An item whose conversion raises the tool error is counted as a
    failure and reported on the error stream by a block of lines: the item's
    name, the exit status, the captured output and error text when they are
    not empty, between two rules.  The world is not touched and the loop goes
    on with the next item. *)
Theorem tool_error_is_reported self infile todo sc ec st code cmd out err st1 :
  process_file os self infile st
  = (Raise (CalledProcessError code cmd out err), st1) ->
  batch_loop os self (infile :: todo) sc ec st
  = batch_loop os self todo sc (ec + 1)
      {| world := world st1;
         trace := (trace st1
                   ++ tool_error_report (name infile) code out err)%list |}.
Proof.
  intros H. cbn [batch_loop]. unfold bind at 1, try_except, bind at 1.
  rewrite H. unfold report_tool_error, tool_error_report. monad_unfold.
  destruct (truthy out), (truthy err); cbn [world trace map app fst snd];
    rewrite <- ?app_assoc; reflexivity.
Qed.

(** X14.  When the encoder cannot be started at all, the exception of
    [subprocess.run] leaves [process_file] at once: the decoder is not
    started, the item is counted as a failure, and one line with the item's
    name and the message, then the stack trace, go to the error stream. *)
Theorem launch_failure_is_counted self infile todo sc ec st enc dec e w1 :
  tool_argvs os self infile st = (Ok (enc, dec), st) ->
  subprocess_exec os (world st) enc = (inl e, w1) ->
  is_CalledProcessError e = false ->
  process_file os self infile st
  = (Raise e, {| world := w1;
                 trace := (trace st ++ [EvExec enc (inl e)])%list |})
  /\ batch_loop os self (infile :: todo) sc ec st
     = batch_loop os self todo sc (ec + 1)
         {| world := w1;
            trace := (trace st ++ EvExec enc (inl e)
                      :: unexpected_report (name infile) e)%list |}.
Proof.
  intros Ha He Hk.
  assert (Hp : process_file os self infile st
               = (Raise e, {| world := w1;
                              trace := (trace st ++ [EvExec enc (inl e)])%list |})).
  { rewrite process_file_unfold, (run_tools_unfold os _ _ _ _ _ Ha).
    now rewrite subprocess_run_spec, He. }
  split; [exact Hp|].
  cbn [batch_loop]. unfold bind at 1, try_except, bind at 1. rewrite Hp.
  unfold report_unexpected, unexpected_report.
  destruct e; try discriminate Hk; monad_unfold; cbn [world trace fst snd];
    rewrite <- ?app_assoc; reflexivity.
Qed.


End Runs.

Lemma success_means_both_tools_exited_zero_witness :
  exists enc dec cp1 cp2,
    enc = encode_argv_native (machine Unix) unix_self (in_dir "a.wav")
    /\ dec = decode_argv_native (machine Unix) unix_self (in_dir "a.wav")
    /\ returncode cp1 = 0%Z /\ returncode cp2 = 0%Z
    /\ exists evs,
         trace (snd (process_file (machine Unix) unix_self (in_dir "a.wav")
                       (start unix_world)))
         = EvExec enc (inr cp1) :: EvExec dec (inr cp2) :: evs.
Proof.
  destruct (success_means_both_tools_exited_zero (machine Unix) unix_self
              (in_dir "a.wav") (start unix_world)
              (snd (process_file (machine Unix) unix_self (in_dir "a.wav")
                      (start unix_world))) eq_refl)
    as (enc & dec & cp1 & w1 & cp2 & w2 & evs & Ha & _ & R1 & _ & R2 & Ht & _).
  exists enc, dec, cp1, cp2.
  injection Ha as <- <-.
  split; [reflexivity|]. split; [reflexivity|].
  split; [exact R1|]. split; [exact R2|].
  exists evs. exact Ht.
Defined.

Lemma tool_error_is_reported_witness :
  batch_loop (machine Unix) unix_self [in_dir "bad.wav"] 0 0 (start unix_world)
  = (Ok (0, 1),
     {| world := unix_world;
        trace := EvExec ["/opt/brr/bin/brr_encoder"; "-sb16000"; "in/bad.wav";
                         "out/bad.brr"] (inr bad_process)
                 :: tool_error_report "bad.wav" 2 "" "bad input" |}).
Proof.
  rewrite (tool_error_is_reported (machine Unix) unix_self (in_dir "bad.wav")
             [] 0 0 (start unix_world) 2
             ["/opt/brr/bin/brr_encoder"; "-sb16000"; "in/bad.wav"; "out/bad.brr"]
             "" "bad input"
             (snd (process_file (machine Unix) unix_self (in_dir "bad.wav")
                     (start unix_world))) eq_refl).
  reflexivity.
Defined.

Lemma launch_failure_is_counted_witness :
  batch_loop (broken_machine Unix) unix_self [in_dir "a.wav"] 0 0
    (start unix_world)
  = (Ok (0, 1),
     {| world := unix_world;
        trace := EvExec (encode_argv_native (broken_machine Unix) unix_self
                           (in_dir "a.wav"))
                   (inl (OSError "cannot start"))
                 :: unexpected_report "a.wav" (OSError "cannot start") |}).
Proof.
  destruct (launch_failure_is_counted (broken_machine Unix) unix_self
              (in_dir "a.wav") [] 0 0 (start unix_world)
              (encode_argv_native (broken_machine Unix) unix_self (in_dir "a.wav"))
              (decode_argv_native (broken_machine Unix) unix_self (in_dir "a.wav"))
              (OSError "cannot start") unix_world
              eq_refl eq_refl eq_refl) as [_ H].
  rewrite H. reflexivity.
Defined.


End Conversion.

(* ================================================================== *)
(** * Start-up outside Windows *)
(* ================================================================== *)

Module UnixStartup.
Import PyStr PyStrFacts Pathlib PathlibFacts Effects BatchConvert Spec.
Import ScriptFacts Machine.

Section Events.
Context {W : Type} (P : Event -> bool).

Lemma only_ret {A} (a : A) : only_events P (ret (W := W) a).
Proof. intros st. exists []. cbn. now rewrite app_nil_r. Qed.

Lemma only_raise {A} e : only_events P (raise (W := W) (A := A) e).
Proof. intros st. exists []. cbn. now rewrite app_nil_r. Qed.

Lemma only_ask {A} (q : W -> A) : only_events P (ask q).
Proof. intros st. exists []. cbn. now rewrite app_nil_r. Qed.

Lemma only_act {A} (f : W -> A * W) (ev : A -> Event) :
  (forall a, P (ev a) = true) -> only_events P (act f ev).
Proof.
  intros Hev st. unfold act. destruct (f (world st)) as [a w'].
  exists [ev a]. cbn. now rewrite Hev.
Qed.

Lemma only_emit ev : P ev = true -> only_events P (emit (W := W) ev).
Proof. intros Hev st. exists [ev]. cbn. now rewrite Hev. Qed.

Lemma only_bind {A B} (m : M W A) (k : A -> M W B) :
  only_events P m -> (forall a, only_events P (k a)) ->
  only_events P (bind m k).
Proof.
  intros Hm Hk st. unfold bind.
  destruct (Hm st) as (evs & Ht & Hs).
  destruct (m st) as [[a|e|] st1]; cbn [fst snd] in *;
    try (now exists evs).
  destruct (Hk a st1) as (evs' & Ht' & Hs').
  exists (evs ++ evs')%list. rewrite Ht', Ht, <- app_assoc.
  split; [reflexivity|]. now rewrite forallb_app, Hs, Hs'.
Qed.

End Events.

Section Unix.
Context {W : Type} (os : OS W).

Lemma only_get_infiles indir : only_events print_or_mkdir (get_infiles os indir).
Proof.
  unfold get_infiles, is_dir, iterdir.
  apply only_bind; [apply only_ask|intros d].
  destruct (negb d); [apply only_raise|].
  apply only_bind.
  - apply only_bind; [apply only_ask|intros [e|entries]];
      [apply only_raise|apply only_ret].
  - intros items. apply only_bind; [apply only_ask|intros [|f fs]];
      [apply only_raise|].
    apply only_bind; [|intros _; apply only_ret].
    apply only_emit. reflexivity.
Qed.

Lemma only_get_outpath outdir : only_events print_or_mkdir (get_outpath os outdir).
Proof.
  unfold get_outpath, exists_, is_dir, makedirs.
  apply only_bind; [apply only_ask|intros e].
  apply only_bind.
  - destruct (negb e); [|apply only_ret].
    apply only_bind; [|intros _; apply only_emit; reflexivity].
    apply only_bind; [apply only_act; reflexivity|].
    intros [e'|]; [apply only_raise|apply only_ret].
  - intros _. apply only_bind; [apply only_ask|intros d].
    destruct (negb d); [apply only_raise|apply only_ret].
Qed.

Lemma only_get_brrtools_bin dir :
  only_events print_or_mkdir (get_brrtools_bin os dir).
Proof.
  unfold get_brrtools_bin, is_dir.
  apply only_bind; [apply only_ask|intros d].
  destruct (negb d); [apply only_raise|].
  apply only_bind; [apply only_ask|intros d'].
  destruct (negb d'); [apply only_raise|apply only_ret].
Qed.

(** X16.  Outside Windows, [__init__] looks for no shell: it starts no
    process, deletes nothing, and at most prints and creates the output
    directory; the processor it returns records no bash. *)
Theorem unix_startup_starts_nothing brr indir outdir r st res st1 :
  sys_platform os = Unix ->
  BatchProcessor_init os brr indir outdir r st = (res, st1) ->
  (exists evs, trace st1 = (trace st ++ evs)%list
               /\ forallb print_or_mkdir evs = true)
  /\ (forall self, res = Ok self -> cygwin_bash self = None).
Proof.
  intros Hpf Hi. split.
  - assert (Ho : only_events print_or_mkdir
                   (BatchProcessor_init os brr indir outdir r)).
    { unfold BatchProcessor_init. rewrite Hpf.
      apply only_bind; [apply only_get_infiles|intros files].
      apply only_bind; [apply only_get_outpath|intros out].
      apply only_bind; [apply only_get_brrtools_bin|intros bin].
      apply only_ret. }
    specialize (Ho st). now rewrite Hi in Ho.
  - revert Hi. unfold BatchProcessor_init. rewrite Hpf. unfold bind at 1.
    destruct (get_infiles os indir st) as [[files| |] s1];
      [|intros [= <- _]; discriminate|intros [= <- _]; discriminate].
    unfold bind at 1.
    destruct (get_outpath os outdir s1) as [[out| |] s2];
      [|intros [= <- _]; discriminate|intros [= <- _]; discriminate].
    unfold bind at 1.
    destruct (get_brrtools_bin os brr s2) as [[bin| |] s3];
      [|intros [= <- _]; discriminate|intros [= <- _]; discriminate].
    monad_unfold. intros [= <- _] self [= <-]. reflexivity.
Qed.

End Unix.

Lemma unix_startup_starts_nothing_witness :
  (exists evs,
      trace (snd (BatchProcessor_init (machine Unix) "/opt/brr" "in" "out" 16000
                    (start unix_world)))
      = evs
      /\ forallb print_or_mkdir evs = true)
  /\ cygwin_bash unix_self = None.
Proof.
  destruct (unix_startup_starts_nothing (machine Unix) "/opt/brr" "in" "out"
              16000 (start unix_world) (Ok unix_self)
              (snd (BatchProcessor_init (machine Unix) "/opt/brr" "in" "out"
                      16000 (start unix_world))) eq_refl)
    as [(evs & Ht & Hq) Hb].
  - vm_compute. reflexivity.
  - split; [|now apply Hb]. exists evs. split; [exact Ht|exact Hq].
Defined.

End UnixStartup.

(* ================================================================== *)
(** * What the translation makes of Windows paths *)
(* ================================================================== *)

Module WindowsPaths.
Import PyStr PyStrFacts Pathlib PathlibFacts Effects BatchConvert Spec.
Import Machine Translation.













End WindowsPaths.

(* ================================================================== *)
(** * The order of the batch *)
(* ================================================================== *)

Module BatchOrder.
Import PyStr PyStrFacts Pathlib PathlibFacts Effects BatchConvert Spec.
Import ScriptFacts Machine Cleanup Tools.

Lemma no_exec_app a b : no_exec (a ++ b)%list = no_exec a && no_exec b.
Proof. apply forallb_app. Qed.

Lemma no_exec_cleanup evs : forallb cleanup_event evs = true -> no_exec evs = true.
Proof.
  apply forallb_impl. now intros [] H.
Qed.

Lemma item_block_app {W} (os : OS W) self infile evs more :
  item_block os self infile evs -> no_exec more = true ->
  item_block os self infile (evs ++ more)%list.
Proof.
  intros (r & rest & -> & H) Hm. exists r, (rest ++ more)%list.
  split; [reflexivity|].
  destruct H as [H|(r2 & rest2 & -> & H)].
  - left. now rewrite no_exec_app, H, Hm.
  - right. exists r2, (rest2 ++ more)%list. split; [reflexivity|].
    now rewrite no_exec_app, H, Hm.
Qed.

Section Order.
Context {W : Type} (os : OS W).
Hypothesis Hunix : sys_platform os = Unix.

Lemma tool_argvs_unix self infile st :
  tool_argvs os self infile st
  = (Ok (encode_argv_native os self infile, decode_argv_native os self infile),
     st).
Proof. unfold tool_argvs. now rewrite Hunix. Qed.

(** One conversion: its result, and its events as a block. *)
Lemma process_file_block self infile st :
  exists r st1 evs,
    process_file os self infile st = (r, st1)
    /\ r <> Diverge
    /\ trace st1 = (trace st ++ evs)%list
    /\ item_block os self infile evs.
Proof.
  rewrite process_file_unfold,
    (run_tools_unfold os _ _ _ _ _ (tool_argvs_unix self infile st)).
  rewrite subprocess_run_spec.
  destruct (subprocess_exec os (world st) _) as [[e1|cp1] w1].
  { eexists. eexists. eexists. split; [reflexivity|]. split; [discriminate|].
    split; [reflexivity|]. eexists. eexists. split; [reflexivity|now left]. }
  destruct (returncode cp1 =? 0)%Z; cbn [andb negb].
  2:{ eexists. eexists. eexists. split; [reflexivity|]. split; [discriminate|].
      split; [reflexivity|]. eexists. eexists. split; [reflexivity|now left]. }
  rewrite subprocess_run_spec. cbn [world trace].
  destruct (subprocess_exec os w1 _) as [[e2|cp2] w2].
  { eexists. eexists. eexists. split; [reflexivity|]. split; [discriminate|].
    cbn [trace]. rewrite <- app_assoc. split; [reflexivity|].
    eexists. eexists. split; [reflexivity|]. right.
    eexists. eexists. now split. }
  destruct (returncode cp2 =? 0)%Z; cbn [andb negb].
  2:{ eexists. eexists. eexists. split; [reflexivity|]. split; [discriminate|].
      cbn [trace]. rewrite <- app_assoc. split; [reflexivity|].
      eexists. eexists. split; [reflexivity|]. right.
      eexists. eexists. now split. }
  destruct (Conversion.delete_tmp_brr_events os
              (job_tmp_brr os self infile)
              {| world := w2;
                 trace := ((trace st
                            ++ [EvExec (encode_argv_native os self infile)
                                  (inr cp1)])
                           ++ [EvExec (decode_argv_native os self infile)
                                 (inr cp2)])%list |})
    as (s' & evs & Hd & Ht & Hc).
  rewrite Hd. eexists. eexists. eexists.
  split; [reflexivity|]. split; [discriminate|].
  rewrite Ht. cbn [trace]. rewrite <- !app_assoc.
  split; [reflexivity|].
  eexists. eexists. split; [reflexivity|]. right.
  eexists. eexists. split; [reflexivity|].
  now apply no_exec_cleanup.
Qed.

(** The handler of a failed item prints, and starts nothing. *)
Lemma batch_loop_handler self infile todo sc ec st e st1 :
  process_file os self infile st = (Raise e, st1) ->
  exists st2 hevs,
    batch_loop os self (infile :: todo) sc ec st
    = batch_loop os self todo sc (ec + 1) st2
    /\ trace st2 = (trace st1 ++ hevs)%list
    /\ no_exec hevs = true.
Proof.
  intros H. cbn [batch_loop]. unfold bind at 1, try_except, bind at 1.
  rewrite H.
  destruct e; unfold report_tool_error, report_unexpected; monad_unfold;
    try (eexists; eexists; split; [reflexivity|];
         cbn [trace]; rewrite <- ?app_assoc; split; reflexivity).
  destruct (truthy out), (truthy err);
    eexists; eexists; (split; [reflexivity|]);
    cbn [trace]; rewrite <- ?app_assoc; split; reflexivity.
Qed.

(** X19.  Outside Windows the loop attempts every file of the list once
    and in the order of the list: its events are one block per file, in
    order, and the block of a file starts with the encoder run on that file,
    followed at most by the decoder run on it and by events that start no
    process. *)
Theorem batch_follows_the_list self todo :
  forall sc ec st,
  exists blocks sc' ec' st',
    batch_loop os self todo sc ec st = (Ok (sc', ec'), st')
    /\ trace st' = (trace st ++ concat blocks)%list
    /\ Forall2 (item_block os self) todo blocks.
Proof.
  induction todo as [|infile todo IH]; intros sc ec st.
  - exists [], sc, ec, st. cbn. rewrite app_nil_r. now repeat split.
  - destruct (process_file_block self infile st)
      as (r & st1 & evs & Hp & Hr & Ht & Hb).
    destruct r as [[]|e|]; [| |congruence].
    + rewrite (batch_loop_ok os _ _ _ _ _ _ _ Hp).
      destruct (IH (sc + 1) ec st1) as (blocks & sc' & ec' & st' & Hl & Ht' & Hf).
      exists (evs :: blocks), sc', ec', st'. split; [exact Hl|].
      split; [|now constructor].
      rewrite Ht', Ht. cbn [concat]. now rewrite <- app_assoc.
    + destruct (batch_loop_handler self infile todo sc ec _ _ _ Hp)
        as (st2 & hevs & Hl & Ht2 & Hn).
      destruct (IH sc (ec + 1) st2) as (blocks & sc' & ec' & st' & Hl' & Ht' & Hf).
      exists ((evs ++ hevs)%list :: blocks), sc', ec', st'.
      split; [now rewrite Hl|].
      split; [|constructor; [now apply item_block_app|exact Hf]].
      rewrite Ht', Ht2, Ht. cbn [concat]. now rewrite <- !app_assoc.
Qed.

End Order.

Lemma batch_follows_the_list_witness :
  exists blocks,
    trace (snd (batch_loop (machine Unix) unix_self (infiles unix_self) 0 0
                  (start unix_world)))
    = concat blocks
    /\ Forall2 (item_block (machine Unix) unix_self)
         [in_dir "a.wav"; in_dir "bad.wav"; in_dir "c.WAV"] blocks.
Proof.
  destruct (batch_follows_the_list (machine Unix) eq_refl unix_self
              (infiles unix_self) 0 0 (start unix_world))
    as (blocks & sc' & ec' & st' & Hl & Ht & Hf).
  exists blocks. rewrite Hl. split; [exact Ht|exact Hf].
Defined.

End BatchOrder.
